(** * kern/tsc.c: TSC calibration against the PIT and the timer session

    A shallow embedding of [kern/tsc.c] (x86-64 JOS: [int] is 32 bits,
    [long], [unsigned long] and [uint64_t] are 64 bits).  Machine integers
    are [Z] with the wrap-around written out, the file's static variables
    are the fields of [State], and port I/O, the cycle counter and the
    other timers' frequency getters are answered by an environment [Env]. *)

From Stdlib Require Import ZArith List String Bool Lia.
Import ListNotations.
Local Open Scope Z_scope.

(** ** Machine integers *)

Definition u8 (z : Z) : Z := z mod 2 ^ 8.
Definition u32 (z : Z) : Z := z mod 2 ^ 32.
Definition u64 (z : Z) : Z := z mod 2 ^ 64.

(** The cast [(long) x] of a 64-bit unsigned value. *)
Definition s64 (z : Z) : Z :=
  if u64 z <? 2 ^ 63 then u64 z else u64 z - 2 ^ 64.

(** ** Constants of the file *)

Definition PIT_TICK_RATE : Z := 1193182.
Definition DEFAULT_FREQ : Z := 2500000.
Definition TIMES : Z := 100.
Definition MAX_QUICK_PIT_MS : Z := 25.
Definition MAX_QUICK_PIT_ITERATIONS : Z :=
  MAX_QUICK_PIT_MS * PIT_TICK_RATE / 1000 / 256.

(** ** Data *)

Inductive Timer_id : Type :=
| ID_NONE
| ID_HPET0
| ID_HPET1
| ID_PIT
| ID_PM.

Definition Timer_id_eqb (a b : Timer_id) : bool :=
  match a, b with
  | ID_NONE, ID_NONE | ID_HPET0, ID_HPET0 | ID_HPET1, ID_HPET1
  | ID_PIT, ID_PIT | ID_PM, ID_PM => true
  | _, _ => false
  end.

(** What [cprintf] is asked to print: one constructor per format string of
    the file, carrying the format's arguments. *)
Inductive Line : Type :=
| CalibrationNotice                    (* "Can't calibrate pit timer. Using default frequency\n" *)
| TimeLine (seconds : Z)               (* "%u\n" *)
| TimerErrorLine                       (* "Timer Error\n" *)
| UnsupportedStart (name : string)     (* "timer_start: unsupported timer %s\n" *)
| UnsupportedFrequency (name : string) (* "timer_cpu_frequency: unsupported timer %s\n" *)
| FrequencyLine (freq : Z).            (* "%ld\n" *)

(** Everything the file takes from outside: the port numbers and command
    bytes of [kern/tsc.h], the answers of the hardware ([inb_val k port] is
    what the [k]-th [inb] of the run reads on [port], [tsc_val k] what the
    [k]-th [read_tsc] reads), and the values the [get_cpu_freq] members of
    [timer_hpet0], [timer_hpet1] and [timer_acpipm] return. *)
Record Env : Type := mkEnv {
  PIT_IO_CHANNEL_2 : Z;
  PIT_IO_CMD : Z;
  PIT_CMD_CHANNEL_2 : Z;
  PIT_ACC_LOHI : Z;
  inb_val : nat -> Z -> Z;
  tsc_val : nat -> Z;
  hpet0_get_cpu_freq : Z;
  hpet1_get_cpu_freq : Z;
  acpipm_get_cpu_freq : Z
}.

(** The mutable state: how far the hardware answers have been consumed,
    what was written to ports and to the console, and the statics of the
    file ([cpu_freq] is the static local of [tsc_calibrate]).
    [calib_calls] is instrumentation: the number of calls to
    [quick_pit_calibrate] so far. *)
Record State : Type := mkState {
  n_inb : nat;
  n_tsc : nat;
  outb_log : list (Z * Z);
  console : list Line;
  calib_calls : nat;
  cpu_freq : Z;
  timer_started : bool;
  timer_id : Timer_id;
  timer : Z
}.

Definition set_n_inb (v : nat) (s : State) : State :=
  mkState v (n_tsc s) (outb_log s) (console s) (calib_calls s) (cpu_freq s)
          (timer_started s) (timer_id s) (timer s).
Definition set_n_tsc (v : nat) (s : State) : State :=
  mkState (n_inb s) v (outb_log s) (console s) (calib_calls s) (cpu_freq s)
          (timer_started s) (timer_id s) (timer s).
Definition set_outb_log (v : list (Z * Z)) (s : State) : State :=
  mkState (n_inb s) (n_tsc s) v (console s) (calib_calls s) (cpu_freq s)
          (timer_started s) (timer_id s) (timer s).
Definition set_console (v : list Line) (s : State) : State :=
  mkState (n_inb s) (n_tsc s) (outb_log s) v (calib_calls s) (cpu_freq s)
          (timer_started s) (timer_id s) (timer s).
Definition set_calib_calls (v : nat) (s : State) : State :=
  mkState (n_inb s) (n_tsc s) (outb_log s) (console s) v (cpu_freq s)
          (timer_started s) (timer_id s) (timer s).
Definition set_cpu_freq (v : Z) (s : State) : State :=
  mkState (n_inb s) (n_tsc s) (outb_log s) (console s) (calib_calls s) v
          (timer_started s) (timer_id s) (timer s).
Definition set_timer_started (v : bool) (s : State) : State :=
  mkState (n_inb s) (n_tsc s) (outb_log s) (console s) (calib_calls s)
          (cpu_freq s) v (timer_id s) (timer s).
Definition set_timer_id (v : Timer_id) (s : State) : State :=
  mkState (n_inb s) (n_tsc s) (outb_log s) (console s) (calib_calls s)
          (cpu_freq s) (timer_started s) v (timer s).
Definition set_timer (v : Z) (s : State) : State :=
  mkState (n_inb s) (n_tsc s) (outb_log s) (console s) (calib_calls s)
          (cpu_freq s) (timer_started s) (timer_id s) v.

(** The state at boot: nothing consumed or printed, statics zeroed,
    [timer_started = 0], [timer_id = ID_NONE], [timer = 0]. *)
Definition boot : State :=
  mkState 0 0 [] [] 0 0 false ID_NONE 0.

(** The three session statics together. *)
Definition session (s : State) : bool * Timer_id * Z :=
  (timer_started s, timer_id s, timer s).

(** A call either returns or stops the kernel on the divide-error trap. *)
Inductive Outcome (A : Type) : Type :=
| Returns (a : A)
| DivideError.
Arguments Returns {A} a.
Arguments DivideError {A}.

Section Tsc.

Variable E : Env.

(** ** Primitives of inc/x86.h and inc/stdio.h *)

Definition inb (port : Z) (s : State) : Z * State :=
  (u8 (inb_val E (n_inb s) port), set_n_inb (S (n_inb s)) s).

Definition outb (port data : Z) (s : State) : State :=
  set_outb_log (outb_log s ++ [(port, u8 data)]) s.

Definition read_tsc (s : State) : Z * State :=
  (u64 (tsc_val E (n_tsc s)), set_n_tsc (S (n_tsc s)) s).

Definition cprintf (l : Line) (s : State) : State :=
  set_console (console s ++ [l]) s.

(** ** Port Transition Detector *)

Definition pit_verify_msb (val : Z) (s : State) : bool * State :=
  let '(_, s1) := inb (PIT_IO_CHANNEL_2 E) s in
  let '(msb, s2) := inb (PIT_IO_CHANNEL_2 E) s1 in
  (msb =? u8 val, s2).

(** [while (count++ < 50000) { if (!pit_verify_msb(val)) break; tsc = read_tsc(); }]
    returning the final [count] and [tsc].  The recursion is on [fuel];
    [pit_expect_loop_spec] shows that the fuel [pit_expect_msb] gives is
    never used up. *)
Fixpoint pit_expect_loop (fuel : nat) (val count tsc : Z) (s : State)
  : Z * Z * State :=
  match fuel with
  | O => (count, tsc, s)
  | S fuel' =>
      if count <? 50000 then
        let count := count + 1 in
        let '(ok, s1) := pit_verify_msb val s in
        if negb ok then (count, tsc, s1)
        else
          let '(t, s2) := read_tsc s1 in
          pit_expect_loop fuel' val count t s2
      else (count + 1, tsc, s)
  end.

(** Returns [(count > 6, *tscp, *deltap)] and the new state. *)
Definition pit_expect_msb (val : Z) (s : State) : bool * Z * Z * State :=
  let '(count, tsc, s1) := pit_expect_loop (Z.to_nat 50001) val 0 0 s in
  let '(now, s2) := read_tsc s1 in
  (count >? 6, tsc, u64 (now - tsc), s2).

(** ** Frequency Calibrator *)

(** The body of the [for] loop of [quick_pit_calibrate], from [i] on:
    [Some (i, delta, d2)] when it leaves by [goto success], [None] when it
    leaves by [break] or by the loop test. *)
Fixpoint quick_pit_loop (fuel : nat) (i tsc d1 : Z) (s : State)
  : option (Z * Z * Z) * State :=
  match fuel with
  | O => (None, s)
  | S fuel' =>
      if i <=? MAX_QUICK_PIT_ITERATIONS then
        let '(ok, delta, d2, s1) := pit_expect_msb (0xFF - i) s in
        if negb ok then (None, s1)
        else
          let delta := u64 (delta - tsc) in
          if u64 (d1 + d2) >=? Z.shiftr delta 11 then
            quick_pit_loop fuel' (i + 1) tsc d1 s1
          else
            let '(ok2, s2) := pit_verify_msb (0xFE - i) s1 in
            if negb ok2 then (None, s2)
            else (Some (i, delta, d2), s2)
      else (None, s)
  end.

(** The code after the label [success]. *)
Definition quick_pit_success (i delta d1 d2 : Z) : Z :=
  let delta := u64 (delta + Z.quot (s64 (u64 (d2 - d1))) 2) in
  let delta := u64 (delta * PIT_TICK_RATE) in
  let delta := delta / u64 (i * 256 * 1000) in
  delta.

(** The part of [quick_pit_calibrate] before [return 0] and [success]:
    the sample [(i, delta, d1, d2)] it jumps to [success] with, if any. *)
Definition quick_pit_search (s : State) : option (Z * Z * Z * Z) * State :=
  let s := set_calib_calls (S (calib_calls s)) s in
  let '(v, s) := inb 0x61 s in
  let s := outb 0x61 (Z.lor (Z.land v (Z.lnot 0x02)) 0x01) s in
  let s := outb (PIT_IO_CMD E) (Z.lor (PIT_CMD_CHANNEL_2 E) (PIT_ACC_LOHI E)) s in
  let s := outb (PIT_IO_CHANNEL_2 E) 0xFF s in
  let s := outb (PIT_IO_CHANNEL_2 E) 0xFF s in
  let '(_, s) := pit_verify_msb 0 s in
  let '(ok, tsc, d1, s) := pit_expect_msb 0xFF s in
  if ok then
    match quick_pit_loop (Z.to_nat MAX_QUICK_PIT_ITERATIONS + 1) 1 tsc d1 s with
    | (Some (i, delta, d2), s') => (Some (i, delta, d1, d2), s')
    | (None, s') => (None, s')
    end
  else (None, s).

Definition quick_pit_calibrate (s : State) : Z * State :=
  match quick_pit_search s with
  | (Some (i, delta, d1, d2), s') => (quick_pit_success i delta d1 d2, s')
  | (None, s') => (0, s')
  end.

(** ** Calibration Cache & Retry Policy *)

(** [while (--i > 0) { if ((cpu_freq = quick_pit_calibrate())) break; }]
    returning the final [i]. *)
Fixpoint tsc_calibrate_loop (fuel : nat) (i : Z) (s : State) : Z * State :=
  match fuel with
  | O => (i, s)
  | S fuel' =>
      let i := i - 1 in
      if i >? 0 then
        let '(r, s1) := quick_pit_calibrate s in
        let s2 := set_cpu_freq r s1 in
        if r =? 0 then tsc_calibrate_loop fuel' i s2 else (i, s2)
      else (i, s)
  end.

Definition tsc_calibrate (s : State) : Z * State :=
  let s' :=
    if cpu_freq s =? 0 then
      let '(i, s1) := tsc_calibrate_loop (Z.to_nat TIMES) TIMES s in
      if i =? 0 then cprintf CalibrationNotice (set_cpu_freq DEFAULT_FREQ s1)
      else s1
    else s in
  (u64 (cpu_freq s' * 1000), s').

Definition print_time (seconds : Z) (s : State) : State :=
  cprintf (TimeLine (u32 seconds)) s.

Definition print_timer_error (s : State) : State :=
  cprintf TimerErrorLine s.

(** ** Timer Source Registry *)

Definition get_cpu_freq_by_id (t_id : Timer_id) (s : State) : Z * State :=
  match t_id with
  | ID_HPET0 => (u64 (hpet0_get_cpu_freq E), s)
  | ID_HPET1 => (u64 (hpet1_get_cpu_freq E), s)
  | ID_PIT => tsc_calibrate s
  | ID_PM => (u64 (acpipm_get_cpu_freq E), s)
  | ID_NONE => (0, s)
  end.

(** [strcmp(a, b) == 0] of inc/string.h. *)
Definition strcmp_is_0 (a b : string) : bool := String.eqb a b.

Definition get_timer_id (name : string) : Timer_id :=
  if strcmp_is_0 name "hpet0" then ID_HPET0
  else if strcmp_is_0 name "hpet1" then ID_HPET1
  else if strcmp_is_0 name "pit" then ID_PIT
  else if strcmp_is_0 name "pm" then ID_NONE
  else ID_NONE.

(** ** Elapsed-Time Session *)

Definition timer_start (name : string) (s : State) : State :=
  let s := set_timer_id (get_timer_id name) s in
  if Timer_id_eqb (timer_id s) ID_NONE then
    cprintf (UnsupportedStart name) s
  else
    let s := set_timer_started true s in
    let '(t, s) := read_tsc s in
    set_timer t s.

(** The division of [timer_stop] traps when the divisor is 0. *)
Definition timer_stop (s : State) : Outcome State :=
  if negb (timer_started s) then Returns (print_timer_error s)
  else
    let '(now, s) := read_tsc s in
    let cpu_ticks_since := u64 (now - timer s) in
    let '(freq, s) := get_cpu_freq_by_id (timer_id s) s in
    if freq =? 0 then DivideError
    else
      let seconds_since := cpu_ticks_since / freq in
      let s := print_time seconds_since s in
      let s := set_timer_started false s in
      Returns (set_timer_id ID_NONE s).

Definition timer_cpu_frequency (name : string) (s : State) : State :=
  let id := get_timer_id name in
  if Timer_id_eqb id ID_NONE then
    cprintf (UnsupportedFrequency name) s
  else
    let '(freq, s) := get_cpu_freq_by_id id s in
    cprintf (FrequencyLine freq) s.

(** ** Sequences of calls *)

Inductive Call : Type :=
| Call_timer_start (name : string)
| Call_timer_stop
| Call_timer_cpu_frequency (name : string).

Definition call (c : Call) (s : State) : Outcome State :=
  match c with
  | Call_timer_start name => Returns (timer_start name s)
  | Call_timer_stop => timer_stop s
  | Call_timer_cpu_frequency name => Returns (timer_cpu_frequency name s)
  end.

Fixpoint run (cs : list Call) (s : State) : Outcome State :=
  match cs with
  | [] => Returns s
  | c :: cs' =>
      match call c s with
      | Returns s' => run cs' s'
      | DivideError => DivideError
      end
  end.

End Tsc.

(** ** Repeated queries of the calibration cache *)

(** [n] consecutive calls of [tsc_calibrate]: the values returned, in
    order, and the final state. *)
Fixpoint tsc_calibrate_calls (E : Env) (n : nat) (s : State) : list Z * State :=
  match n with
  | O => ([], s)
  | S n' =>
      let '(v, s1) := tsc_calibrate E s in
      let '(vs, s2) := tsc_calibrate_calls E n' s1 in
      (v :: vs, s2)
  end.

(** The next [n] consecutive calls of [quick_pit_calibrate] from [s] all
    return 0. *)
Fixpoint attempts_fail (E : Env) (n : nat) (s : State) : Prop :=
  match n with
  | O => True
  | S n' =>
      fst (quick_pit_calibrate E s) = 0 /\
      attempts_fail E n' (snd (quick_pit_calibrate E s))
  end.

(** ** Consecutive confirmations seen by the detector *)

(** How many polls in a row, out of at most [cap], read the most
    significant byte [val] on channel 2, when the next [inb] of the run is
    the [idx]-th: each poll reads the low byte at an even offset and the
    high byte right after it. *)
Fixpoint confirmations (E : Env) (val : Z) (idx cap : nat) : nat :=
  match cap with
  | O => O
  | S cap' =>
      if u8 (inb_val E (S idx) (PIT_IO_CHANNEL_2 E)) =? u8 val
      then S (confirmations E val (S (S idx)) cap')
      else O
  end.

(** The cycle-counter value recorded at the last of [n] confirmations
    ([tsc0] when there was none). *)
Definition anchor (E : Env) (s : State) (tsc0 : Z) (n : nat) : Z :=
  match n with
  | O => tsc0
  | S m => u64 (tsc_val E (n_tsc s + m))
  end.

(** ** Hardware scenarios *)

(** Port numbers and command bytes of the i8254 as on the PC. *)
Definition pc_env (inb_v : nat -> Z -> Z) (tsc_v : nat -> Z) (hpet : Z) : Env :=
  mkEnv 0x42 0x43 0x80 0x30 inb_v tsc_v hpet hpet 0.

(** A counter that is stuck: every port read gives 0. *)
Definition stuck_env : Env := pc_env (fun _ _ => 0) (fun k => Z.of_nat k) 100000000.

(** A counter whose high byte drops by one every seven polls, the first
    poll of an attempt being the [b]-th read of the run. *)
Definition ticking_msb (b k : nat) : Z :=
  0xFF - (Z.of_nat (k - b) - 2) / 14.

(** Cycle-counter reads of one attempt: six reads a million cycles apart,
    the seventh 100 cycles after the sixth, and the same again. *)
Definition steady_tsc : list Z :=
  [0; 1000000; 2000000; 3000000; 4000000; 5000000; 5000100;
   6000000; 7000000; 8000000; 9000000; 10000000; 11000000; 11000100].

Definition steady_env : Env :=
  pc_env (fun k _ => ticking_msb 0 k) (fun k => nth k steady_tsc 0) 100000000.

(** The counter is stuck for the first 495 port reads (99 attempts of five
    reads each) and ticks from then on. *)
Definition late_env : Env :=
  pc_env (fun k _ => if (k <? 495)%nat then 0 else ticking_msb 495 k)
         (fun k => nth (k - 99) steady_tsc 0) 100000000.

(** As [steady_env], but the cycle counter advances by [2 ^ 63] (still
    without going backwards) between the two anchors. *)
Definition leaping_tsc : list Z :=
  [0; 1; 2; 3; 4; 5; 105;
   2 ^ 62; 2 ^ 62 + 1; 2 ^ 62 + 2; 2 ^ 62 + 3; 2 ^ 62 + 4; 2 ^ 63 + 5; 2 ^ 63 + 105].

Definition leaping_env : Env :=
  pc_env (fun k _ => ticking_msb 0 k) (fun k => nth k leaping_tsc 0) 100000000.

(** The high byte reads [0xFF] for exactly six polls, then [0xFE]. *)
Definition six_polls_env : Env :=
  pc_env (fun k _ => if (k <? 12)%nat then 0xFF else 0xFE) (fun k => Z.of_nat k) 100000000.

(** The state [quick_pit_search] leaves on [steady_env] (and on
    [leaping_env]) from [boot]: 33 port reads, 14 cycle-counter reads and
    the four set-up writes. *)
Definition after_one_attempt : State :=
  mkState 33 14 [(97, 1); (67, 176); (66, 255); (66, 255)] [] 1 0 false ID_NONE 0.

(** Two sessions on the event timers with a rejected start in between,
    and the state they end in on [stuck_env] from [boot]. *)
Definition two_sessions : list Call :=
  [Call_timer_start "hpet0"; Call_timer_stop;
   Call_timer_start "bogus";
   Call_timer_start "hpet1"; Call_timer_stop].

Definition after_two_sessions : State :=
  mkState 0 4 [] [TimeLine 0; UnsupportedStart "bogus"; TimeLine 0]
          0 0 false ID_NONE 2.

(** ** Relations between states used below *)

(** [hw_step s s']: [s'] differs from [s] at most in the hardware
    bookkeeping; console, cache, session and the count of calibration
    attempts are the same. *)
Definition hw_step (s s' : State) : Prop :=
  console s' = console s /\ cpu_freq s' = cpu_freq s /\
  session s' = session s /\ calib_calls s' = calib_calls s.

(** An idle session records no source. *)
Definition idle_has_no_source (s : State) : Prop :=
  timer_started s = false -> timer_id s = ID_NONE.

(** The state after [n] consecutive calls of [quick_pit_calibrate]. *)
Fixpoint after_attempts (E : Env) (n : nat) (s : State) : State :=
  match n with
  | O => s
  | S n' => after_attempts E n' (snd (quick_pit_calibrate E s))
  end.

(** Unfold the field updates and read fields of explicit records. *)
Ltac state_fields :=
  unfold set_n_inb, set_n_tsc, set_outb_log, set_console, set_calib_calls,
    set_cpu_freq, set_timer_started, set_timer_id, set_timer;
  cbn [n_inb n_tsc outb_log console calib_calls cpu_freq timer_started
       timer_id timer].

(** ** Vocabulary for the further properties *)

(** What the [k]-th [read_tsc] of the run returns. *)
Definition tsc_at (E : Env) (k : nat) : Z := u64 (tsc_val E k).

(** The [n] consecutive pairs of cycle-counter reads from the [lo]-th on
    do not go backwards. *)
Fixpoint tsc_nondecreasing (E : Env) (lo n : nat) : bool :=
  match n with
  | O => true
  | S n' => (tsc_at E lo <=? tsc_at E (S lo)) && tsc_nondecreasing E (S lo) n'
  end.

(** The cache is empty or holds a value a calibration can have left:
    [quick_pit_calibrate] returns less than [2 ^ 47] and [DEFAULT_FREQ] is
    smaller still. *)
Definition cache_in_range (s : State) : Prop := 0 <= cpu_freq s < 2 ^ 47.

(** Most port reads and cycle-counter reads one call of
    [quick_pit_calibrate] can make: one read of port 0x61, one discarded
    poll, the baseline sample and [MAX_QUICK_PIT_ITERATIONS] samples of at
    most 50000 polls, each followed by at most one check. *)
Definition MAX_ATTEMPT_INB : Z := 3 + 100000 + MAX_QUICK_PIT_ITERATIONS * 100002.
Definition MAX_ATTEMPT_TSC : Z := (MAX_QUICK_PIT_ITERATIONS + 1) * 50001.

(** The session as a two-bit automaton: is a measurement running, and is
    a source recorded.  [None] is the divide-error trap. *)
Definition supported (name : string) : bool :=
  negb (Timer_id_eqb (get_timer_id name) ID_NONE).

Definition session_view (s : State) : bool * bool :=
  (timer_started s, negb (Timer_id_eqb (timer_id s) ID_NONE)).

Definition session_step (c : Call) (v : bool * bool) : option (bool * bool) :=
  match c with
  | Call_timer_start name =>
      if supported name then Some (true, true) else Some (fst v, false)
  | Call_timer_stop =>
      if fst v then (if snd v then Some (false, false) else None) else Some v
  | Call_timer_cpu_frequency _ => Some v
  end.

Fixpoint session_run (cs : list Call) (v : bool * bool) : option (bool * bool) :=
  match cs with
  | [] => Some v
  | c :: cs' =>
      match session_step c v with
      | Some v' => session_run cs' v'
      | None => None
      end
  end.

(** Every [timer_start] of the sequence names a supported timer. *)
Definition starts_supported (cs : list Call) : bool :=
  forallb (fun c => match c with
                    | Call_timer_start name => supported name
                    | _ => true
                    end) cs.

(** The counter is stuck during the first two attempts (ten port reads,
    two cycle-counter reads) and ticks from the third on. *)
Definition retry_env : Env :=
  pc_env (fun k _ => if (k <? 10)%nat then 0 else ticking_msb 10 k)
         (fun k => nth (k - 2) steady_tsc 0) 100000000.

(** The same on an explicit record, innermost update first. *)
Ltac state_compute :=
  cbv [outb set_n_inb set_n_tsc set_outb_log set_console set_calib_calls
       set_cpu_freq set_timer_started set_timer_id set_timer
       n_inb n_tsc outb_log console calib_calls cpu_freq timer_started
       timer_id timer].

(** * Properties *)

(** ** Machine-integer facts *)

Lemma u64_range z : 0 <= u64 z < 2 ^ 64.
Proof. unfold u64. apply Z.mod_pos_bound. lia. Qed.

Lemma u64_small z : 0 <= z < 2 ^ 64 -> u64 z = z.
Proof. intros H. unfold u64. apply Z.mod_small. exact H. Qed.

Lemma s64_u64_small z : - 2 ^ 63 <= z < 2 ^ 63 -> s64 (u64 z) = z.
Proof.
  intros H. unfold s64.
  assert (Hi : u64 (u64 z) = u64 z).
  { unfold u64. apply Z.mod_mod. lia. }
  rewrite Hi. destruct (Z_lt_ge_dec z 0) as [Hneg | Hpos].
  - assert (Hz : u64 z = z + 2 ^ 64).
    { unfold u64. symmetry. apply Z.mod_unique with (q := -1); lia. }
    rewrite Hz. destruct (z + 2 ^ 64 <? 2 ^ 63) eqn:C.
    + apply Z.ltb_lt in C. lia.
    + lia.
  - rewrite (u64_small z) by lia.
    destruct (z <? 2 ^ 63) eqn:C; [reflexivity | apply Z.ltb_ge in C; lia].
Qed.

(** ** What the hardware-facing code leaves alone *)

Lemma hw_step_refl s : hw_step s s.
Proof. repeat split. Qed.

Lemma hw_step_trans s1 s2 s3 : hw_step s1 s2 -> hw_step s2 s3 -> hw_step s1 s3.
Proof.
  unfold hw_step. intros (A1 & A2 & A3 & A4) (B1 & B2 & B3 & B4).
  repeat split; congruence.
Qed.

Section Frame.

Variable E : Env.

Lemma inb_frame port s : hw_step s (snd (inb E port s)).
Proof. repeat split. Qed.

Lemma outb_frame port data s : hw_step s (outb port data s).
Proof. repeat split. Qed.

Lemma read_tsc_frame s : hw_step s (snd (read_tsc E s)).
Proof. repeat split. Qed.

Lemma pit_verify_msb_frame val s : hw_step s (snd (pit_verify_msb E val s)).
Proof. repeat split. Qed.

Lemma pit_expect_loop_frame fuel :
  forall val count tsc s, hw_step s (snd (pit_expect_loop E fuel val count tsc s)).
Proof.
  induction fuel as [| fuel IH]; intros val count tsc s; cbn [pit_expect_loop].
  - apply hw_step_refl.
  - destruct (count <? 50000); [| apply hw_step_refl].
    pose proof (pit_verify_msb_frame val s) as F1.
    destruct (pit_verify_msb E val s) as [ok s1]. cbn [snd] in F1.
    destruct ok; cbn [negb]; [| exact F1].
    pose proof (read_tsc_frame s1) as F2.
    destruct (read_tsc E s1) as [t s2]. cbn [snd] in F2.
    eapply hw_step_trans; [exact F1 |].
    eapply hw_step_trans; [exact F2 | apply IH].
Qed.

Lemma pit_expect_msb_frame val s : hw_step s (snd (pit_expect_msb E val s)).
Proof.
  unfold pit_expect_msb.
  pose proof (pit_expect_loop_frame (Z.to_nat 50001) val 0 0 s) as F.
  destruct (pit_expect_loop E (Z.to_nat 50001) val 0 0 s) as [[count tsc] s1].
  cbn [snd] in *. eapply hw_step_trans; [exact F | repeat split].
Qed.

Lemma quick_pit_loop_frame fuel :
  forall i tsc d1 s, hw_step s (snd (quick_pit_loop E fuel i tsc d1 s)).
Proof.
  induction fuel as [| fuel IH]; intros i tsc d1 s; cbn [quick_pit_loop].
  - apply hw_step_refl.
  - destruct (i <=? MAX_QUICK_PIT_ITERATIONS); [| apply hw_step_refl].
    pose proof (pit_expect_msb_frame (255 - i) s) as F1.
    destruct (pit_expect_msb E (255 - i) s) as [[[ok delta] d2] s1].
    cbn [snd] in F1. destruct ok; cbn [negb]; [| exact F1].
    destruct (u64 (d1 + d2) >=? Z.shiftr (u64 (delta - tsc)) 11).
    + eapply hw_step_trans; [exact F1 | apply IH].
    + pose proof (pit_verify_msb_frame (254 - i) s1) as F2.
      destruct (pit_verify_msb E (254 - i) s1) as [ok2 s2].
      cbn [snd] in F2. destruct ok2; cbn [negb snd];
        eapply hw_step_trans; eassumption.
Qed.

Lemma quick_pit_search_frame s :
  hw_step (set_calib_calls (S (calib_calls s)) s) (snd (quick_pit_search E s)).
Proof.
  unfold quick_pit_search, inb. cbv zeta.
  set (s0 := outb _ _ (outb _ _ (outb _ _ (outb _ _ _)))).
  assert (F0 : hw_step (set_calib_calls (S (calib_calls s)) s) s0) by repeat split.
  pose proof (pit_verify_msb_frame 0 s0) as F1.
  destruct (pit_verify_msb E 0 s0) as [junk s1]. cbn [snd] in F1.
  pose proof (pit_expect_msb_frame 255 s1) as F2.
  destruct (pit_expect_msb E 255 s1) as [[[ok tsc] d1] s2]. cbn [snd] in F2.
  assert (F : hw_step (set_calib_calls (S (calib_calls s)) s) s2).
  { eapply hw_step_trans; [exact F0 |]. eapply hw_step_trans; eassumption. }
  destruct ok; [| exact F].
  pose proof (quick_pit_loop_frame (Z.to_nat MAX_QUICK_PIT_ITERATIONS + 1) 1 tsc d1 s2) as F3.
  destruct (quick_pit_loop E _ 1 tsc d1 s2) as [[[[i delta] d2] |] s3];
    cbn [snd] in *; eapply hw_step_trans; eassumption.
Qed.

(** One attempt touches neither console, cache nor session, and counts
    as one call. *)
Lemma quick_pit_calibrate_frame s :
  let s' := snd (quick_pit_calibrate E s) in
  console s' = console s /\ cpu_freq s' = cpu_freq s /\
  session s' = session s /\ calib_calls s' = S (calib_calls s).
Proof.
  unfold quick_pit_calibrate.
  pose proof (quick_pit_search_frame s) as F.
  destruct (quick_pit_search E s) as [[[[[i delta] d1] d2] |] s']; exact F.
Qed.

End Frame.

(** ** The calibration cache *)

Lemma set_cpu_freq_same s : set_cpu_freq (cpu_freq s) s = s.
Proof. destruct s; reflexivity. Qed.

Section Cache.

Variable E : Env.

(** Whatever fuel at least [i] the retry loop is given, it stops on its
    own test or on a [break], with [i] at 0 exactly when no attempt gave a
    nonzero value; it leaves console and session alone and makes at most
    [i - 1] attempts. *)
Lemma tsc_calibrate_loop_result fuel :
  forall i s, 1 <= i <= Z.of_nat fuel ->
    let r := tsc_calibrate_loop E fuel i s in
    0 <= fst r < i /\
    (fst r <> 0 -> cpu_freq (snd r) <> 0) /\
    console (snd r) = console s /\
    session (snd r) = session s /\
    (calib_calls s <= calib_calls (snd r) <= calib_calls s + Z.to_nat (i - 1))%nat.
Proof.
  induction fuel as [| fuel IH]; intros i s Hi; [lia |].
  cbn [tsc_calibrate_loop]. cbv zeta.
  destruct (i - 1 >? 0) eqn:C.
  - apply Z.gtb_lt in C.
    pose proof (quick_pit_calibrate_frame E s) as F. cbv zeta in F.
    destruct (quick_pit_calibrate E s) as [r s1]. cbn [snd] in F.
    destruct F as (F1 & F2 & F3 & F4).
    destruct (r =? 0) eqn:R.
    + specialize (IH (i - 1) (set_cpu_freq r s1)).
      destruct IH as (I1 & I2 & I3 & I4 & I5); [lia |].
      change (console (set_cpu_freq r s1)) with (console s1) in I3.
      change (session (set_cpu_freq r s1)) with (session s1) in I4.
      change (calib_calls (set_cpu_freq r s1)) with (calib_calls s1) in I5.
      split; [lia |]. split; [exact I2 |]. split; [congruence |].
      split; [congruence | lia].
    + apply Z.eqb_neq in R. cbn [fst snd].
      change (cpu_freq (set_cpu_freq r s1)) with r.
      change (console (set_cpu_freq r s1)) with (console s1).
      change (session (set_cpu_freq r s1)) with (session s1).
      change (calib_calls (set_cpu_freq r s1)) with (calib_calls s1).
      split; [lia |]. split; [intros _; exact R |]. split; [exact F1 |].
      split; [exact F3 | lia].
  - assert (i = 1) by (rewrite Z.gtb_ltb in C; apply Z.ltb_ge in C; lia).
    subst i. cbn [fst snd]. repeat split; lia.
Qed.

(** When the next [n] attempts all return 0, the loop entered with
    [i = n + 1] makes exactly these [n] attempts and ends with [i = 0]. *)
Lemma tsc_calibrate_loop_all_fail n :
  forall fuel s, (n < fuel)%nat -> cpu_freq s = 0 -> attempts_fail E n s ->
    let r := tsc_calibrate_loop E fuel (Z.of_nat n + 1) s in
    fst r = 0 /\ cpu_freq (snd r) = 0 /\ console (snd r) = console s /\
    session (snd r) = session s /\ calib_calls (snd r) = (calib_calls s + n)%nat.
Proof.
  induction n as [| n IH]; intros fuel s Hf H0 Ha;
    (destruct fuel as [| fuel]; [lia |]); cbn [tsc_calibrate_loop]; cbv zeta.
  - change (Z.of_nat 0 + 1 - 1 >? 0) with false. cbn [fst snd].
    repeat split; [exact H0 | lia].
  - replace (Z.of_nat (S n) + 1 - 1) with (Z.of_nat n + 1) by lia.
    destruct (Z.of_nat n + 1 >? 0) eqn:C;
      [| rewrite Z.gtb_ltb in C; apply Z.ltb_ge in C; lia].
    cbn [attempts_fail] in Ha. destruct Ha as [Hr Ha].
    pose proof (quick_pit_calibrate_frame E s) as F. cbv zeta in F.
    destruct (quick_pit_calibrate E s) as [r s1]. cbn [fst snd] in *.
    destruct F as (F1 & F2 & F3 & F4). subst r.
    change (0 =? 0) with true. cbv iota.
    replace (set_cpu_freq 0 s1) with s1
      by (rewrite <- (set_cpu_freq_same s1) at 1; congruence).
    destruct (IH fuel s1) as (I1 & I2 & I3 & I4 & I5); [lia | congruence | exact Ha |].
    repeat split; try congruence. rewrite I5, F4. lia.
Qed.

(** The retry loop does not depend on its fuel once the fuel covers [i]. *)
Lemma tsc_calibrate_loop_fuel fuel :
  forall fuel' i s, 1 <= i <= Z.of_nat fuel -> i <= Z.of_nat fuel' ->
    tsc_calibrate_loop E fuel i s = tsc_calibrate_loop E fuel' i s.
Proof.
  induction fuel as [| fuel IH]; intros fuel' i s H H'; [lia |].
  destruct fuel' as [| fuel']; [lia |]. cbn [tsc_calibrate_loop]. cbv zeta.
  destruct (i - 1 >? 0) eqn:C; [| reflexivity].
  apply Z.gtb_lt in C.
  destruct (quick_pit_calibrate E s) as [r s1].
  destruct (r =? 0); [| reflexivity]. apply IH; lia.
Qed.

(** When the next [n] attempts return 0 and the one after them returns
    [r <> 0], the loop entered with [i > n + 1] stops right after that
    attempt with [r] in the cache. *)
Lemma tsc_calibrate_loop_first_success n :
  forall fuel i s r,
    cpu_freq s = 0 -> attempts_fail E n s ->
    fst (quick_pit_calibrate E (after_attempts E n s)) = r -> r <> 0 ->
    Z.of_nat n + 1 < i <= Z.of_nat fuel ->
    tsc_calibrate_loop E fuel i s =
      (i - Z.of_nat n - 1,
       set_cpu_freq r (snd (quick_pit_calibrate E (after_attempts E n s)))).
Proof.
  induction n as [| n IH]; intros fuel i s r H0 Ha Hr Hnz Hi;
    (destruct fuel as [| fuel]; [lia |]); cbn [tsc_calibrate_loop]; cbv zeta;
    (destruct (i - 1 >? 0) eqn:C;
      [| rewrite Z.gtb_ltb in C; apply Z.ltb_ge in C; lia]);
    cbn [after_attempts attempts_fail] in *.
  - destruct (quick_pit_calibrate E s) as [r' s1]. cbn [fst snd] in *. subst r'.
    apply Z.eqb_neq in Hnz. rewrite Hnz. f_equal. lia.
  - destruct Ha as [Hz Ha].
    pose proof (quick_pit_calibrate_frame E s) as F. cbv zeta in F.
    destruct (quick_pit_calibrate E s) as [r' s1]. cbn [fst snd] in *.
    destruct F as (_ & F2 & _). subst r'.
    change (0 =? 0) with true. cbv iota.
    replace (set_cpu_freq 0 s1) with s1
      by (rewrite <- (set_cpu_freq_same s1) at 1; congruence).
    rewrite (IH fuel (i - 1) s1 r) by (congruence || assumption || lia).
    f_equal. lia.
Qed.

(** With an empty cache, the first nonzero result among the first 99
    attempts ends the retries; it is cached and returned times 1000, and
    nothing is printed. *)
Lemma tsc_calibrate_first_success n s r :
  cpu_freq s = 0 -> (n < 99)%nat -> attempts_fail E n s ->
  fst (quick_pit_calibrate E (after_attempts E n s)) = r -> r <> 0 ->
  tsc_calibrate E s =
    (u64 (r * 1000),
     set_cpu_freq r (snd (quick_pit_calibrate E (after_attempts E n s)))).
Proof.
  intros H0 Hn Ha Hr Hnz. unfold tsc_calibrate.
  rewrite H0. change (0 =? 0) with true. cbv iota.
  rewrite (tsc_calibrate_loop_first_success n (Z.to_nat TIMES) TIMES s r H0 Ha Hr Hnz)
    by (unfold TIMES; lia).
  destruct (TIMES - Z.of_nat n - 1 =? 0) eqn:C;
    [apply Z.eqb_eq in C; unfold TIMES in C; lia | reflexivity].
Qed.

(** A filled cache answers without touching anything. *)
Lemma tsc_calibrate_hit s :
  cpu_freq s <> 0 -> tsc_calibrate E s = (u64 (cpu_freq s * 1000), s).
Proof.
  intros H. unfold tsc_calibrate.
  apply Z.eqb_neq in H. rewrite H. reflexivity.
Qed.

Lemma tsc_calibrate_calls_hit n s :
  cpu_freq s <> 0 ->
  tsc_calibrate_calls E n s = (repeat (u64 (cpu_freq s * 1000)) n, s).
Proof.
  intros H. induction n as [| n IH]; cbn [tsc_calibrate_calls repeat].
  - reflexivity.
  - rewrite (tsc_calibrate_hit s H), IH. reflexivity.
Qed.

(** Every call leaves the cache filled, and returns what it cached. *)
Lemma tsc_calibrate_fills s :
  cpu_freq (snd (tsc_calibrate E s)) <> 0 /\
  fst (tsc_calibrate E s) = u64 (cpu_freq (snd (tsc_calibrate E s)) * 1000).
Proof.
  unfold tsc_calibrate. destruct (cpu_freq s =? 0) eqn:C.
  - pose proof (tsc_calibrate_loop_result (Z.to_nat TIMES) TIMES s) as L.
    cbv zeta in L.
    destruct (tsc_calibrate_loop E (Z.to_nat TIMES) TIMES s) as [i s1].
    cbn [fst snd] in *.
    destruct L as (L1 & L2 & _); [unfold TIMES; lia |].
    destruct (i =? 0) eqn:I.
    + split; [| reflexivity]. cbn. unfold DEFAULT_FREQ. lia.
    + apply Z.eqb_neq in I. split; [exact (L2 I) | reflexivity].
  - apply Z.eqb_neq in C. cbn [fst snd]. split; [exact C | reflexivity].
Qed.

(** The session statics are not touched by a frequency query. *)
Lemma tsc_calibrate_session s : session (snd (tsc_calibrate E s)) = session s.
Proof.
  unfold tsc_calibrate. destruct (cpu_freq s =? 0); [| reflexivity].
  pose proof (tsc_calibrate_loop_result (Z.to_nat TIMES) TIMES s) as L.
  cbv zeta in L.
  destruct (tsc_calibrate_loop E (Z.to_nat TIMES) TIMES s) as [i s1].
  cbn [fst snd] in *.
  destruct L as (_ & _ & _ & L4 & _); [unfold TIMES; lia |].
  destruct (i =? 0); cbn [snd]; [| exact L4].
  rewrite <- L4. reflexivity.
Qed.

(** A call makes at most 99 calibration attempts. *)
Lemma tsc_calibrate_attempts s :
  (calib_calls (snd (tsc_calibrate E s)) <= calib_calls s + 99)%nat.
Proof.
  unfold tsc_calibrate. destruct (cpu_freq s =? 0); cbn [snd]; [| lia].
  pose proof (tsc_calibrate_loop_result (Z.to_nat TIMES) TIMES s) as L.
  cbv zeta in L.
  destruct (tsc_calibrate_loop E (Z.to_nat TIMES) TIMES s) as [i s1].
  cbn [fst snd] in *.
  destruct L as (_ & _ & _ & _ & L5); [unfold TIMES; lia |].
  assert (calib_calls s1 <= calib_calls s + 99)%nat by (unfold TIMES in L5; lia).
  destruct (i =? 0); cbn [calib_calls cprintf set_console set_cpu_freq]; assumption.
Qed.

End Cache.

(** C3: [tsc_calibrate] is idempotent.  After any first call, a further
    call returns the same value and leaves the whole state as it was, so
    it made no calibration attempt; the same holds for any number [n] of
    further calls. *)
Theorem tsc_calibrate_idempotent (E : Env) (s : State) (n : nat) :
  let r := tsc_calibrate E s in
  tsc_calibrate E (snd r) = r /\
  tsc_calibrate_calls E n (snd r) = (repeat (fst r) n, snd r) /\
  calib_calls (snd (tsc_calibrate_calls E n (snd r))) = calib_calls (snd r).
Proof.
  cbv zeta. destruct (tsc_calibrate_fills E s) as [Hnz Hv].
  rewrite (tsc_calibrate_hit E _ Hnz), (tsc_calibrate_calls_hit E n _ Hnz), <- Hv.
  destruct (tsc_calibrate E s) as [v s1]. repeat split.
Qed.

(** C4: with an empty cache and every attempt returning 0, the first call
    caches [DEFAULT_FREQ] and prints the notice; this call and each of [n]
    further calls return [DEFAULT_FREQ * 1000 = 2500000000], and after all
    of them the console has gained the notice exactly once. *)
Theorem tsc_calibrate_default (E : Env) (s : State) (n : nat) :
  cpu_freq s = 0 ->
  attempts_fail E 99 s ->
  let r := tsc_calibrate_calls E (S n) s in
  fst r = repeat 2500000000 (S n) /\
  DEFAULT_FREQ * 1000 = 2500000000 /\
  cpu_freq (snd r) = DEFAULT_FREQ /\
  console (snd r) = console s ++ [CalibrationNotice].
Proof.
  intros H0 Ha. cbv zeta. cbn [tsc_calibrate_calls].
  assert (T : tsc_calibrate E s =
              (2500000000,
               cprintf CalibrationNotice
                 (set_cpu_freq DEFAULT_FREQ
                    (snd (tsc_calibrate_loop E (Z.to_nat TIMES) TIMES s)))) /\
              console (snd (tsc_calibrate_loop E (Z.to_nat TIMES) TIMES s)) = console s).
  { unfold tsc_calibrate. rewrite H0. change (0 =? 0) with true. cbv iota.
    pose proof (tsc_calibrate_loop_all_fail E 99 (Z.to_nat TIMES) s) as L.
    cbv zeta in L. change (Z.of_nat 99 + 1) with TIMES in L.
    destruct L as (L1 & L2 & L3 & _); [unfold TIMES; lia | exact H0 | exact Ha |].
    destruct (tsc_calibrate_loop E (Z.to_nat TIMES) TIMES s) as [i s1].
    cbn [fst snd] in *. subst i. split; [reflexivity | exact L3]. }
  destruct T as [T Hc]. rewrite T.
  rewrite tsc_calibrate_calls_hit by (cbn; unfold DEFAULT_FREQ; lia).
  cbn [fst snd]. split; [reflexivity |]. split; [reflexivity |].
  split; [reflexivity |].
  change (console (snd (tsc_calibrate_loop E (Z.to_nat TIMES) TIMES s))
            ++ [CalibrationNotice] = console s ++ [CalibrationNotice]).
  rewrite Hc. reflexivity.
Qed.

Lemma tsc_calibrate_default_witness :
  cpu_freq boot = 0 /\
  attempts_fail stuck_env 99 boot /\
  fst (tsc_calibrate_calls stuck_env 3 boot) = repeat 2500000000 3 /\
  DEFAULT_FREQ * 1000 = 2500000000 /\
  cpu_freq (snd (tsc_calibrate_calls stuck_env 3 boot)) = DEFAULT_FREQ /\
  console (snd (tsc_calibrate_calls stuck_env 3 boot))
    = console boot ++ [CalibrationNotice].
Proof.
  assert (H0 : cpu_freq boot = 0) by reflexivity.
  assert (Ha : attempts_fail stuck_env 99 boot) by (vm_compute; repeat split).
  split; [exact H0 |]. split; [exact Ha |].
  exact (tsc_calibrate_default stuck_env boot 2 H0 Ha).
Defined.

(** C5 (the code departs from the claim): no call of [tsc_calibrate] makes
    more than 99 attempts.  On [late_env], where the first 99 attempts
    fail and the next one would succeed, the call stops after 99 attempts
    and returns the default, although one more attempt from the state it
    leaves returns 27965203 kHz. *)
Theorem tsc_calibrate_gives_up_after_99 :
  (forall E s, (calib_calls (snd (tsc_calibrate E s)) <= calib_calls s + 99)%nat) /\
  (let r := tsc_calibrate late_env boot in
   calib_calls (snd r) = 99%nat /\
   fst r = 2500000000 /\
   console (snd r) = [CalibrationNotice] /\
   fst (quick_pit_calibrate late_env (snd r)) = 27965203).
Proof.
  split.
  - intros E s. apply tsc_calibrate_attempts.
  - vm_compute. repeat split.
Qed.

(** ** The timer source registry and the session *)

Lemma Timer_id_eqb_eq a b : Timer_id_eqb a b = true <-> a = b.
Proof. destruct a, b; cbn; split; congruence. Qed.

Section Session.

Variable E : Env.

Lemma get_cpu_freq_by_id_session id s :
  session (snd (get_cpu_freq_by_id E id s)) = session s.
Proof. destruct id; cbn [get_cpu_freq_by_id snd]; auto using tsc_calibrate_session. Qed.

(** A frequency query does not touch the session. *)
Lemma timer_cpu_frequency_session name s :
  session (timer_cpu_frequency E name s) = session s.
Proof.
  unfold timer_cpu_frequency.
  destruct (Timer_id_eqb (get_timer_id name) ID_NONE); [reflexivity |].
  pose proof (get_cpu_freq_by_id_session (get_timer_id name) s) as F.
  destruct (get_cpu_freq_by_id E (get_timer_id name) s) as [freq s1].
  exact F.
Qed.

(** What [timer_start] does with a name that [get_timer_id] does not
    resolve: the recorded source id is overwritten with [ID_NONE] before
    the error is reported. *)
Lemma timer_start_unsupported name s :
  get_timer_id name = ID_NONE ->
  timer_start E name s = cprintf (UnsupportedStart name) (set_timer_id ID_NONE s).
Proof. intros H. unfold timer_start. cbn [timer_id set_timer_id]. rewrite H. reflexivity. Qed.

(** With no source recorded, such a start only prints. *)
Lemma timer_start_unsupported_no_source name s :
  get_timer_id name = ID_NONE -> timer_id s = ID_NONE ->
  timer_start E name s = cprintf (UnsupportedStart name) s.
Proof.
  intros H Hs. rewrite (timer_start_unsupported name s H).
  destruct s; cbn in *; subst; reflexivity.
Qed.

(** A stop in the running state that returns has cleared the session. *)
Lemma timer_stop_running s s' :
  timer_started s = true -> timer_stop E s = Returns s' ->
  timer_started s' = false /\ timer_id s' = ID_NONE.
Proof.
  intros Hs. unfold timer_stop. rewrite Hs. cbn [negb read_tsc].
  destruct (get_cpu_freq_by_id E _ _) as [freq s1].
  destruct (freq =? 0); [discriminate |].
  intros H. injection H as <-. split; reflexivity.
Qed.

Lemma call_keeps_idle_has_no_source c s s' :
  idle_has_no_source s -> call E c s = Returns s' -> idle_has_no_source s'.
Proof.
  unfold idle_has_no_source. intros Inv H.
  destruct c as [name | | name]; cbn [call] in H.
  - injection H as <-. unfold timer_start. cbn [timer_id set_timer_id].
    destruct (Timer_id_eqb (get_timer_id name) ID_NONE) eqn:C.
    + intros _. apply Timer_id_eqb_eq in C. exact C.
    + cbn. discriminate.
  - destruct (timer_started s) eqn:Hs.
    + intros _. exact (proj2 (timer_stop_running s s' Hs H)).
    + unfold timer_stop in H. rewrite Hs in H. cbn [negb] in H.
      injection H as <-. intros _. exact (Inv eq_refl).
  - injection H as <-.
    pose proof (timer_cpu_frequency_session name s) as F.
    unfold session in F. injection F as F1 F2 F3. rewrite F1, F2. exact Inv.
Qed.

Lemma run_keeps_idle_has_no_source cs :
  forall s s', idle_has_no_source s -> run E cs s = Returns s' -> idle_has_no_source s'.
Proof.
  induction cs as [| c cs IH]; intros s s' Inv H; cbn [run] in H.
  - injection H as <-. exact Inv.
  - destruct (call E c s) as [s1 |] eqn:C; [| discriminate].
    exact (IH s1 s' (call_keeps_idle_has_no_source c s s1 Inv C) H).
Qed.

End Session.

(** C1 (the code departs from the claim): after [timer_start("pit")], a
    [timer_start] with an unsupported name leaves [timer_started] set
    while putting [ID_NONE] in [timer_id]; the next [timer_stop] then
    divides by [get_cpu_freq_by_id(ID_NONE) = 0]. *)
Theorem timer_stop_divides_by_zero (E : Env) (s : State) :
  fst (get_cpu_freq_by_id E ID_NONE s) = 0 /\
  run E [Call_timer_start "pit"; Call_timer_start "bogus"; Call_timer_stop] s
    = DivideError.
Proof. split; reflexivity. Qed.

(** C2 (the code departs from the claim): in a running session,
    [timer_start] with a name outside the recognized set changes the
    recorded source id to [ID_NONE]; only [timer_started] and the snapshot
    stay as they were. *)
Theorem timer_start_unsupported_clobbers_timer_id (E : Env) (s : State) :
  let s1 := timer_start E "pit" s in
  let s2 := timer_start E "bogus" s1 in
  get_timer_id "bogus" = ID_NONE /\
  session s1 = (true, ID_PIT, u64 (tsc_val E (n_tsc s))) /\
  session s2 = (true, ID_NONE, u64 (tsc_val E (n_tsc s))) /\
  console s2 = console s ++ [UnsupportedStart "bogus"] /\
  session s2 <> session s1.
Proof.
  cbv zeta. repeat split. discriminate.
Qed.

(** C6: [timer_cpu_frequency("pm")] prints the unsupported-timer line and
    nothing else, for every state: no frequency line, no calibration
    attempt, cache and session as before. *)
Theorem timer_cpu_frequency_pm_unsupported (E : Env) (s : State) :
  let s' := timer_cpu_frequency E "pm" s in
  s' = cprintf (UnsupportedFrequency "pm") s /\
  console s' = console s ++ [UnsupportedFrequency "pm"] /\
  cpu_freq s' = cpu_freq s /\
  calib_calls s' = calib_calls s /\
  session s' = session s.
Proof. cbv zeta. repeat split. Qed.

(** C7: in an idle session [timer_stop] returns after printing the timer
    error; session, calibration cache and everything but the console are
    as before. *)
Theorem timer_stop_idle (E : Env) (s : State) :
  timer_started s = false ->
  timer_stop E s = Returns (cprintf TimerErrorLine s) /\
  console (cprintf TimerErrorLine s) = console s ++ [TimerErrorLine] /\
  session (cprintf TimerErrorLine s) = session s /\
  cpu_freq (cprintf TimerErrorLine s) = cpu_freq s.
Proof.
  intros H. unfold timer_stop. rewrite H. repeat split.
Qed.

Lemma timer_stop_idle_witness :
  timer_started boot = false /\
  timer_stop stuck_env boot = Returns (cprintf TimerErrorLine boot) /\
  console (cprintf TimerErrorLine boot) = console boot ++ [TimerErrorLine] /\
  session (cprintf TimerErrorLine boot) = session boot /\
  cpu_freq (cprintf TimerErrorLine boot) = cpu_freq boot.
Proof.
  split; [reflexivity |].
  apply (timer_stop_idle stuck_env boot). reflexivity.
Defined.

(** C10: from a state with [timer_started] false and [timer_id] equal to
    [ID_NONE], every state reached by calls of [timer_start], [timer_stop]
    and [timer_cpu_frequency] that all return has [timer_id = ID_NONE]
    whenever [timer_started] is false.  (A run ending in a [timer_stop]
    that leaves the running state is one such case.) *)
Theorem idle_session_has_no_source (E : Env) (s0 : State) (cs : list Call) (s : State) :
  timer_started s0 = false ->
  timer_id s0 = ID_NONE ->
  run E cs s0 = Returns s ->
  timer_started s = false ->
  timer_id s = ID_NONE.
Proof.
  intros H1 H2 R.
  apply (run_keeps_idle_has_no_source E cs s0 s); [intros _; exact H2 | exact R].
Qed.

Lemma idle_session_has_no_source_witness :
  timer_started boot = false /\
  timer_id boot = ID_NONE /\
  run stuck_env two_sessions boot = Returns after_two_sessions /\
  timer_started after_two_sessions = false /\
  timer_id after_two_sessions = ID_NONE.
Proof.
  split; [reflexivity |]. split; [reflexivity |].
  split; [vm_compute; reflexivity |]. split; [reflexivity |].
  apply (idle_session_has_no_source stuck_env boot two_sessions).
  - reflexivity.
  - reflexivity.
  - vm_compute. reflexivity.
  - reflexivity.
Defined.

(** ** The port transition detector *)

Section Detector.

Variable E : Env.

(** The polling loop entered with [count = 50000 - c] and any fuel above
    [c] stops on its own test or on a [break]: with [n] the number of
    consecutive confirmations among the [c] polls still allowed, it ends
    with [count] advanced by [n + 1], the anchor of the last confirmation,
    [min (n + 1) c] polls made and [n] cycle-counter reads. *)
Lemma pit_expect_loop_spec val c :
  forall fuel tsc s, (c < fuel)%nat -> Z.of_nat c <= 50000 ->
    pit_expect_loop E fuel val (50000 - Z.of_nat c) tsc s =
      (50000 - Z.of_nat c + Z.of_nat (confirmations E val (n_inb s) c) + 1,
       anchor E s tsc (confirmations E val (n_inb s) c),
       set_n_tsc (n_tsc s + confirmations E val (n_inb s) c)
         (set_n_inb (n_inb s + 2 * Nat.min (S (confirmations E val (n_inb s) c)) c) s)).
Proof.
  induction c as [| c IH]; intros fuel tsc s Hf Hc;
    (destruct fuel as [| fuel]; [lia |]); destruct s as [ni nt ol co cc cf ts ti tm];
    cbn [pit_expect_loop confirmations n_inb n_tsc].
  - change (50000 - Z.of_nat 0 <? 50000) with false. cbv iota.
    cbn [anchor Nat.min Nat.mul]. state_fields.
    repeat rewrite Nat.add_0_r. reflexivity.
  - destruct (50000 - Z.of_nat (S c) <? 50000) eqn:T;
      [| apply Z.ltb_ge in T; lia].
    unfold pit_verify_msb, inb, read_tsc. state_fields.
    destruct (u8 (inb_val E (S ni) (PIT_IO_CHANNEL_2 E)) =? u8 val); cbn [negb].
    + replace (50000 - Z.of_nat (S c) + 1) with (50000 - Z.of_nat c) by lia.
      rewrite IH by lia. state_fields.
      set (n := confirmations E val (S (S ni)) c).
      f_equal; [f_equal |].
      * lia.
      * destruct n as [| m]; cbn [anchor n_tsc]; [rewrite Nat.add_0_r; reflexivity |].
        f_equal. f_equal. lia.
      * f_equal; lia.
    + cbn [anchor]. state_fields. f_equal; [f_equal; lia |].
      f_equal; lia.
Qed.

(** The jitter bound and the adjusted sample are 64-bit values. *)
Lemma pit_expect_msb_range val s :
  0 <= snd (fst (pit_expect_msb E val s)) < 2 ^ 64.
Proof.
  unfold pit_expect_msb.
  destruct (pit_expect_loop E (Z.to_nat 50001) val 0 0 s) as [[count tsc] s1].
  cbn [read_tsc fst snd]. apply u64_range.
Qed.

End Detector.

(** C9, as amended: [pit_expect_msb] polls [pit_verify_msb] while the
    expected byte keeps matching, at most 50000 times; with [n] the number
    of consecutive confirmations it saw, it stores the cycle-counter value
    read at the last confirmation (0 when there was none) and the jitter
    bound [now - anchor] taken modulo [2 ^ 64], and returns success
    exactly when [n] is at least 6 (its loop counter, which also counts
    the poll or test that ended the loop, is above 6).  It always returns
    to its caller. *)
Theorem pit_expect_msb_spec (E : Env) (val : Z) (s : State) :
  let n := confirmations E val (n_inb s) (Z.to_nat 50000) in
  let a := anchor E s 0 n in
  let polls := Nat.min (S n) (Z.to_nat 50000) in
  pit_expect_msb E val s =
    ((6 <=? n)%nat, a, u64 (u64 (tsc_val E (n_tsc s + n)) - a),
     set_n_tsc (S (n_tsc s + n)) (set_n_inb (n_inb s + 2 * polls) s)) /\
  Z.of_nat polls <= 50000.
Proof.
  cbv zeta. split; [| lia].
  unfold pit_expect_msb.
  pose proof (pit_expect_loop_spec E val (Z.to_nat 50000) (Z.to_nat 50001) 0 s) as L.
  replace (50000 - Z.of_nat (Z.to_nat 50000)) with 0 in L by lia.
  rewrite L by lia. clear L.
  set (n := confirmations E val (n_inb s) (Z.to_nat 50000)).
  set (polls := Nat.min (S n) (Z.to_nat 50000)).
  unfold read_tsc. destruct s as [ni nt ol co cc cf ts ti tm]. state_fields.
  f_equal. f_equal. f_equal.
  destruct (Nat.leb_spec 6 n) as [H | H].
  - apply Z.gtb_lt. lia.
  - rewrite Z.gtb_ltb. apply Z.ltb_ge. lia.
Qed.

(** C9 as stated, refuted: on [six_polls_env] the expected byte is
    confirmed exactly 6 times, not more, and [pit_expect_msb] reports
    success. *)
Lemma pit_expect_msb_accepts_six :
  confirmations six_polls_env 0xFF (n_inb boot) (Z.to_nat 50000) = 6%nat /\
  fst (fst (fst (pit_expect_msb six_polls_env 0xFF boot))) = true /\
  ~ (fst (fst (fst (pit_expect_msb six_polls_env 0xFF boot))) = true <->
     (6 < confirmations six_polls_env 0xFF (n_inb boot) (Z.to_nat 50000))%nat).
Proof.
  assert (Hn : confirmations six_polls_env 255 (n_inb boot) (Z.to_nat 50000) = 6%nat)
    by (vm_compute; reflexivity).
  assert (Hs : fst (fst (fst (pit_expect_msb six_polls_env 255 boot))) = true)
    by (vm_compute; reflexivity).
  rewrite Hn, Hs. split; [reflexivity |]. split; [reflexivity |].
  intros [H _]. specialize (H eq_refl). lia.
Qed.

(** ** The frequency calibrator *)

Section Calibrator.

Variable E : Env.

(** The [for] loop does not depend on its fuel once the fuel covers the
    iterations left up to [MAX_QUICK_PIT_ITERATIONS]. *)
Lemma quick_pit_loop_fuel fuel :
  forall fuel' i tsc d1 s,
    MAX_QUICK_PIT_ITERATIONS + 1 - i <= Z.of_nat fuel ->
    MAX_QUICK_PIT_ITERATIONS + 1 - i <= Z.of_nat fuel' ->
    quick_pit_loop E fuel i tsc d1 s = quick_pit_loop E fuel' i tsc d1 s.
Proof.
  induction fuel as [| fuel IH]; intros fuel' i tsc d1 s H H'.
  - destruct fuel' as [| fuel']; [reflexivity |]. cbn [quick_pit_loop].
    destruct (i <=? MAX_QUICK_PIT_ITERATIONS) eqn:C; [| reflexivity].
    apply Z.leb_le in C. lia.
  - destruct fuel' as [| fuel']; cbn [quick_pit_loop];
      destruct (i <=? MAX_QUICK_PIT_ITERATIONS) eqn:C; try reflexivity;
      apply Z.leb_le in C; [lia |].
    destruct (pit_expect_msb E (255 - i) s) as [[[ok delta] d2] s1].
    destruct (negb ok); [reflexivity |].
    destruct (u64 (d1 + d2) >=? Z.shiftr (u64 (delta - tsc)) 11); [| reflexivity].
    apply IH; lia.
Qed.

(** What leaving the loop by [goto success] means: at some iteration
    [j] between [i] and [MAX_QUICK_PIT_ITERATIONS] the sample at
    [0xFF - j] succeeded, the jitter test accepted it and the check at
    [0xFE - j] passed. *)
Lemma quick_pit_loop_accepts fuel :
  forall i tsc d1 s j delta d2 s',
    quick_pit_loop E fuel i tsc d1 s = (Some (j, delta, d2), s') ->
    i <= j <= MAX_QUICK_PIT_ITERATIONS /\
    0 <= delta < 2 ^ 64 /\ 0 <= d2 < 2 ^ 64 /\
    u64 (d1 + d2) < Z.shiftr delta 11 /\
    exists s0 t2 s1,
      pit_expect_msb E (0xFF - j) s0 = (true, t2, d2, s1) /\
      delta = u64 (t2 - tsc) /\
      pit_verify_msb E (0xFE - j) s1 = (true, s').
Proof.
  induction fuel as [| fuel IH]; intros i tsc d1 s j delta d2 s' H;
    cbn [quick_pit_loop] in H; [discriminate |].
  destruct (i <=? MAX_QUICK_PIT_ITERATIONS) eqn:C; [| discriminate].
  apply Z.leb_le in C.
  pose proof (pit_expect_msb_range E (255 - i) s) as R.
  destruct (pit_expect_msb E (255 - i) s) as [[[ok t2] d2'] s1] eqn:X.
  cbn [fst snd] in R.
  destruct ok; cbn [negb] in H; [| discriminate].
  destruct (u64 (d1 + d2') >=? Z.shiftr (u64 (t2 - tsc)) 11) eqn:J.
  - destruct (IH _ _ _ _ _ _ _ _ H) as (Hj & rest). split; [lia | exact rest].
  - destruct (pit_verify_msb E (254 - i) s1) as [ok2 s2] eqn:V.
    destruct ok2; cbn [negb] in H; [| discriminate].
    injection H as <- <- <- <-.
    split; [lia |]. split; [apply u64_range |]. split; [exact R |].
    split; [rewrite Z.geb_leb in J; apply Z.leb_gt in J; exact J |].
    exists s, t2, s1. repeat split; assumption.
Qed.

(** The same for the whole search, whose [d1] is the jitter bound of the
    baseline sample at [0xFF]. *)
Lemma quick_pit_search_accepts s i delta d1 d2 s' :
  quick_pit_search E s = (Some (i, delta, d1, d2), s') ->
  1 <= i <= MAX_QUICK_PIT_ITERATIONS /\
  0 <= delta < 2 ^ 64 /\ 0 <= d1 < 2 ^ 64 /\ 0 <= d2 < 2 ^ 64 /\
  u64 (d1 + d2) < Z.shiftr delta 11 /\
  exists s0 t2 s1,
    pit_expect_msb E (0xFF - i) s0 = (true, t2, d2, s1) /\
    pit_verify_msb E (0xFE - i) s1 = (true, s').
Proof.
  unfold quick_pit_search, inb. cbv zeta.
  set (sa := outb _ _ (outb _ _ (outb _ _ (outb _ _ _)))).
  destruct (pit_verify_msb E 0 sa) as [junk sb].
  pose proof (pit_expect_msb_range E 255 sb) as R.
  destruct (pit_expect_msb E 255 sb) as [[[ok tsc] d1'] sc].
  cbn [fst snd] in R.
  destruct ok; [| discriminate].
  destruct (quick_pit_loop E _ 1 tsc d1' sc) as [[[[j dl] d2'] |] sd] eqn:L;
    [| discriminate].
  intros H. injection H as <- <- <- <- <-.
  destruct (quick_pit_loop_accepts _ _ _ _ _ _ _ _ _ L)
    as (Hj & Hd & H2 & Hacc & s0 & t2 & s1 & X & _ & V).
  repeat split; try lia; try assumption.
  exists s0, t2, s1. split; assumption.
Qed.

(** The arithmetic after [success], when nothing wraps. *)
Lemma quick_pit_success_exact i delta d1 d2 :
  1 <= i <= MAX_QUICK_PIT_ITERATIONS ->
  0 <= delta < 2 ^ 64 -> 0 <= d1 -> 0 <= d2 ->
  d1 + d2 < Z.shiftr delta 11 ->
  (delta + Z.quot (d2 - d1) 2) * PIT_TICK_RATE < 2 ^ 64 ->
  quick_pit_success i delta d1 d2 =
    (delta + Z.quot (d2 - d1) 2) * PIT_TICK_RATE / (i * 256 * 1000) /\
  0 < quick_pit_success i delta d1 d2.
Proof.
  intros Hi Hd H1 H2 Hacc Hp.
  rewrite Z.shiftr_div_pow2 in Hacc by lia.
  change (2 ^ 11) with 2048 in Hacc.
  assert (Hi' : 1 <= i <= 116) by exact Hi.
  unfold PIT_TICK_RATE in *.
  assert (Hq : - d1 <= Z.quot (d2 - d1) 2 <= d2)
    by (clear Hp Hacc; Z.to_euclidean_division_equations; lia).
  assert (Hdl : 2048 * (d1 + d2 + 1) <= delta)
    by (clear Hp Hq; Z.to_euclidean_division_equations; lia).
  set (q := Z.quot (d2 - d1) 2) in *.
  assert (Hlo : 2048 <= delta + q) by lia.
  unfold quick_pit_success, PIT_TICK_RATE.
  rewrite s64_u64_small by lia. fold q.
  rewrite (u64_small (delta + q)) by lia.
  rewrite (u64_small ((delta + q) * 1193182)) by lia.
  rewrite (u64_small (i * 256 * 1000)) by lia.
  split; [reflexivity |].
  apply Z.div_str_pos. lia.
Qed.

End Calibrator.

(** C8, as amended: when [quick_pit_calibrate] succeeds, at an iteration
    [i] whose samples satisfy [d1 + d2 < delta >> 11] in 64-bit
    arithmetic and whose final check at [0xFE - i] passed, and neither
    [d1 + d2] nor [(delta + (d2 - d1) / 2) * PIT_TICK_RATE] exceeds 64
    bits, it returns [(delta + (d2 - d1) / 2) * PIT_TICK_RATE / (i * 256 * 1000)]
    with truncating division, and this value is greater than 0. *)
Theorem quick_pit_calibrate_success (E : Env) (s : State) (i delta d1 d2 : Z) (s' : State) :
  quick_pit_search E s = (Some (i, delta, d1, d2), s') ->
  d1 + d2 < 2 ^ 64 ->
  (delta + Z.quot (d2 - d1) 2) * PIT_TICK_RATE < 2 ^ 64 ->
  1 <= i <= MAX_QUICK_PIT_ITERATIONS /\
  d1 + d2 < Z.shiftr delta 11 /\
  quick_pit_calibrate E s =
    ((delta + Z.quot (d2 - d1) 2) * PIT_TICK_RATE / (i * 256 * 1000), s') /\
  0 < fst (quick_pit_calibrate E s).
Proof.
  intros H Hsum Hp.
  destruct (quick_pit_search_accepts E s i delta d1 d2 s' H)
    as (Hi & Hd & H1 & H2 & Hacc & _).
  rewrite (u64_small (d1 + d2)) in Hacc by lia.
  destruct (quick_pit_success_exact i delta d1 d2 Hi Hd (proj1 H1) (proj1 H2) Hacc Hp)
    as [Hv Hpos].
  unfold quick_pit_calibrate. rewrite H. cbn [fst].
  rewrite <- Hv. repeat split; try lia; assumption.
Qed.

Lemma quick_pit_calibrate_success_witness :
  quick_pit_search steady_env boot
    = (Some (1, 6000000, 100, 100), after_one_attempt) /\
  100 + 100 < 2 ^ 64 /\
  (6000000 + Z.quot (100 - 100) 2) * PIT_TICK_RATE < 2 ^ 64 /\
  1 <= 1 <= MAX_QUICK_PIT_ITERATIONS /\
  100 + 100 < Z.shiftr 6000000 11 /\
  quick_pit_calibrate steady_env boot =
    ((6000000 + Z.quot (100 - 100) 2) * PIT_TICK_RATE / (1 * 256 * 1000),
     after_one_attempt) /\
  0 < fst (quick_pit_calibrate steady_env boot).
Proof.
  split; [vm_compute; reflexivity |].
  split; [vm_compute; reflexivity |].
  split; [vm_compute; reflexivity |].
  apply (quick_pit_calibrate_success steady_env boot 1 6000000 100 100).
  - vm_compute. reflexivity.
  - vm_compute. reflexivity.
  - vm_compute. reflexivity.
Defined.

(** C8 as stated, refuted: on [leaping_env] the calibrator succeeds at
    [i = 1] with [delta = 2 ^ 63] and [d1 = d2 = 100], the product
    [delta * PIT_TICK_RATE] wraps to 0 in 64 bits, and the value returned
    is 0, not the quotient over the integers and not a positive one. *)
Lemma leaping_tsc_success_returns_0 :
  fst (quick_pit_search leaping_env boot) = Some (1, 2 ^ 63, 100, 100) /\
  100 + 100 < Z.shiftr (2 ^ 63) 11 /\
  fst (quick_pit_calibrate leaping_env boot) = 0 /\
  (2 ^ 63 + Z.quot (100 - 100) 2) * PIT_TICK_RATE / (1 * 256 * 1000) <> 0 /\
  ~ 0 < fst (quick_pit_calibrate leaping_env boot).
Proof.
  assert (H0 : fst (quick_pit_calibrate leaping_env boot) = 0)
    by (vm_compute; reflexivity).
  split; [vm_compute; reflexivity |].
  split; [vm_compute; reflexivity |].
  split; [exact H0 |].
  split; [vm_compute; discriminate |].
  rewrite H0. lia.
Qed.

(** * Further properties of the registry and the session *)

(** X1: [get_timer_id] resolves exactly the three names "hpet0", "hpet1"
    and "pit", each to its own id, by exact comparison; every other name,
    "pm" included, gives [ID_NONE], and [ID_PM] is never returned. *)
Theorem get_timer_id_names (name : string) :
  (get_timer_id name = ID_HPET0 <-> name = "hpet0"%string) /\
  (get_timer_id name = ID_HPET1 <-> name = "hpet1"%string) /\
  (get_timer_id name = ID_PIT <-> name = "pit"%string) /\
  (get_timer_id name = ID_NONE <->
     name <> "hpet0"%string /\ name <> "hpet1"%string /\ name <> "pit"%string) /\
  get_timer_id name <> ID_PM.
Proof.
  unfold get_timer_id, strcmp_is_0.
  destruct (String.eqb_spec name "hpet0") as [-> | N0].
  { cbn. repeat split; intros; try discriminate; try congruence.
    destruct H as [H _]. congruence. }
  destruct (String.eqb_spec name "hpet1") as [-> | N1].
  { cbn. repeat split; intros; try discriminate; try congruence.
    destruct H as (_ & H & _). congruence. }
  destruct (String.eqb_spec name "pit") as [-> | N2].
  { cbn. repeat split; intros; try discriminate; try congruence.
    destruct H as (_ & _ & H). congruence. }
  destruct (String.eqb_spec name "pm");
    repeat split; intros; try discriminate; try congruence.
Qed.

(** X2: [timer_cpu_frequency] never changes the session, whatever the
    name and the state; for a name other than "pit" it does nothing but
    print one line. *)
Theorem timer_cpu_frequency_reads_only (E : Env) (name : string) (s : State) :
  session (timer_cpu_frequency E name s) = session s /\
  (get_timer_id name <> ID_PIT ->
   exists l, timer_cpu_frequency E name s = cprintf l s).
Proof.
  split; [apply timer_cpu_frequency_session |].
  unfold timer_cpu_frequency. intros H.
  destruct (get_timer_id name); cbn; try (eexists; reflexivity).
  elim H. reflexivity.
Qed.

(** X3: two frequency queries of "pit" in a row: the second makes no
    calibration attempt and no hardware access, and prints the very line
    the first one ended with. *)
Theorem timer_cpu_frequency_pit_twice (E : Env) (s : State) :
  let s1 := timer_cpu_frequency E "pit" s in
  let line := FrequencyLine (fst (tsc_calibrate E s)) in
  console s1 = console (snd (tsc_calibrate E s)) ++ [line] /\
  timer_cpu_frequency E "pit" s1 = cprintf line s1.
Proof.
  cbv zeta.
  assert (Q : forall s0, timer_cpu_frequency E "pit" s0 =
                cprintf (FrequencyLine (fst (tsc_calibrate E s0)))
                        (snd (tsc_calibrate E s0))).
  { intros s0. unfold timer_cpu_frequency. cbn [get_timer_id strcmp_is_0].
    change (get_timer_id "pit") with ID_PIT. cbn [Timer_id_eqb get_cpu_freq_by_id].
    destruct (tsc_calibrate E s0); reflexivity. }
  destruct (tsc_calibrate_fills E s) as [Hnz Hv].
  rewrite (Q s). split; [reflexivity |].
  rewrite Q.
  set (s' := snd (tsc_calibrate E s)) in *.
  assert (Hc : cpu_freq (cprintf (FrequencyLine (fst (tsc_calibrate E s))) s') <> 0)
    by exact Hnz.
  rewrite (tsc_calibrate_hit E _ Hc). cbn [fst snd].
  rewrite Hv. reflexivity.
Qed.

(** X4: a [timer_stop] that returns always leaves the session idle, so a
    [timer_stop] right after it only reports the timer error. *)
Theorem timer_stop_twice (E : Env) (s s' : State) :
  timer_stop E s = Returns s' ->
  timer_started s' = false /\
  timer_stop E s' = Returns (cprintf TimerErrorLine s').
Proof.
  intros H.
  assert (Hs : timer_started s' = false).
  { destruct (timer_started s) eqn:R.
    - exact (proj1 (timer_stop_running E s s' R H)).
    - unfold timer_stop in H. rewrite R in H. cbn [negb] in H.
      injection H as <-. exact R. }
  split; [exact Hs |]. unfold timer_stop. rewrite Hs. reflexivity.
Qed.

Lemma timer_stop_twice_witness :
  timer_stop stuck_env (timer_start stuck_env "hpet0" boot)
    = Returns (mkState 0 2 [] [TimeLine 0] 0 0 false ID_NONE 0) /\
  timer_started (mkState 0 2 [] [TimeLine 0] 0 0 false ID_NONE 0) = false /\
  timer_stop stuck_env (mkState 0 2 [] [TimeLine 0] 0 0 false ID_NONE 0)
    = Returns (cprintf TimerErrorLine
                 (mkState 0 2 [] [TimeLine 0] 0 0 false ID_NONE 0)).
Proof.
  split; [vm_compute; reflexivity |].
  apply (timer_stop_twice stuck_env (timer_start stuck_env "hpet0" boot)).
  vm_compute. reflexivity.
Defined.

(** X5: [timer_start] of a supported name followed by [timer_stop], from
    any state (idle or running): when the selected source reports a
    nonzero frequency [f], the stop returns, prints the cycles between
    the two cycle-counter reads divided by [f] (truncated, and cut to 32
    bits by [print_time]) and leaves the session idle with no source; if
    fewer than [f] cycles went by the printed time is 0. *)
Theorem timer_start_stop_elapsed (E : Env) (name : string) (s : State)
        (f : Z) (s2 : State) :
  get_timer_id name <> ID_NONE ->
  get_cpu_freq_by_id E (get_timer_id name)
    (snd (read_tsc E (timer_start E name s))) = (f, s2) ->
  f <> 0 ->
  let ticks := u64 (tsc_at E (S (n_tsc s)) - tsc_at E (n_tsc s)) in
  exists s',
    timer_stop E (timer_start E name s) = Returns s' /\
    console s' = console s2 ++ [TimeLine (u32 (ticks / f))] /\
    timer_started s' = false /\ timer_id s' = ID_NONE /\
    (0 < f -> ticks < f -> console s' = console s2 ++ [TimeLine 0]).
Proof.
  intros Hid Hf Hnz. cbv zeta.
  assert (S1 : timer_start E name s =
               set_timer (tsc_at E (n_tsc s))
                 (set_n_tsc (S (n_tsc s))
                    (set_timer_started true (set_timer_id (get_timer_id name) s)))).
  { unfold timer_start. cbn [timer_id set_timer_id].
    destruct (Timer_id_eqb (get_timer_id name) ID_NONE) eqn:C;
      [apply Timer_id_eqb_eq in C; contradiction | reflexivity]. }
  rewrite S1 in *. unfold timer_stop.
  cbn [timer_started set_timer set_n_tsc set_timer_started negb].
  unfold read_tsc in *.
  cbn [n_tsc set_timer set_n_tsc set_timer_started set_timer_id timer timer_id snd] in *.
  rewrite Hf. apply Z.eqb_neq in Hnz. rewrite Hnz.
  eexists. split; [reflexivity |].
  split; [reflexivity |]. split; [reflexivity |]. split; [reflexivity |].
  intros Hpos Hlt. cbn [console print_time cprintf set_console set_timer_id set_timer_started].
  rewrite Z.div_small; [reflexivity |].
  split; [apply u64_range | exact Hlt].
Qed.

Lemma timer_start_stop_elapsed_witness :
  get_timer_id "hpet0" <> ID_NONE /\
  get_cpu_freq_by_id stuck_env (get_timer_id "hpet0")
    (snd (read_tsc stuck_env (timer_start stuck_env "hpet0" boot)))
    = (100000000, mkState 0 2 [] [] 0 0 true ID_HPET0 0) /\
  100000000 <> 0 /\
  exists s',
    timer_stop stuck_env (timer_start stuck_env "hpet0" boot) = Returns s' /\
    console s' = console (mkState 0 2 [] [] 0 0 true ID_HPET0 0)
                   ++ [TimeLine (u32 (u64 (tsc_at stuck_env 1 - tsc_at stuck_env 0)
                                      / 100000000))] /\
    timer_started s' = false /\ timer_id s' = ID_NONE /\
    (0 < 100000000 ->
     u64 (tsc_at stuck_env 1 - tsc_at stuck_env 0) < 100000000 ->
     console s' = console (mkState 0 2 [] [] 0 0 true ID_HPET0 0) ++ [TimeLine 0]).
Proof.
  assert (H1 : get_timer_id "hpet0" <> ID_NONE) by (vm_compute; discriminate).
  assert (H2 : get_cpu_freq_by_id stuck_env (get_timer_id "hpet0")
                 (snd (read_tsc stuck_env (timer_start stuck_env "hpet0" boot)))
               = (100000000, mkState 0 2 [] [] 0 0 true ID_HPET0 0))
    by (vm_compute; reflexivity).
  assert (H3 : 100000000 <> 0) by lia.
  split; [exact H1 |]. split; [exact H2 |]. split; [exact H3 |].
  exact (timer_start_stop_elapsed stuck_env "hpet0" boot 100000000 _ H1 H2 H3).
Defined.

(** * Further properties of the detector and the calibrator *)

Section Polling.

Variable E : Env.

Lemma confirmations_le val cap : forall idx, (confirmations E val idx cap <= cap)%nat.
Proof.
  induction cap as [| cap IH]; intros idx; cbn [confirmations]; [lia |].
  destruct (u8 (inb_val E (S idx) (PIT_IO_CHANNEL_2 E)) =? u8 val); [| lia].
  specialize (IH (S (S idx))). lia.
Qed.

Lemma pit_verify_msb_result val s :
  pit_verify_msb E val s =
    (u8 (inb_val E (S (n_inb s)) (PIT_IO_CHANNEL_2 E)) =? u8 val,
     set_n_inb (S (S (n_inb s))) s).
Proof. destruct s; reflexivity. Qed.

(** What one sample returns and the state it leaves, in terms of the
    number of consecutive confirmations. *)
Lemma pit_expect_msb_result val s :
  pit_expect_msb E val s =
    ((6 <=? confirmations E val (n_inb s) (Z.to_nat 50000))%nat,
     anchor E s 0 (confirmations E val (n_inb s) (Z.to_nat 50000)),
     u64 (tsc_at E (n_tsc s + confirmations E val (n_inb s) (Z.to_nat 50000))
          - anchor E s 0 (confirmations E val (n_inb s) (Z.to_nat 50000))),
     set_n_tsc (S (n_tsc s + confirmations E val (n_inb s) (Z.to_nat 50000)))
       (set_n_inb
          (n_inb s + 2 * Nat.min (S (confirmations E val (n_inb s) (Z.to_nat 50000)))
                               (Z.to_nat 50000)) s)).
Proof.
  unfold pit_expect_msb.
  pose proof (pit_expect_loop_spec E val (Z.to_nat 50000) (Z.to_nat 50001) 0 s) as L.
  replace (50000 - Z.of_nat (Z.to_nat 50000)) with 0 in L by lia.
  rewrite L by lia. clear L.
  set (n := confirmations E val (n_inb s) (Z.to_nat 50000)).
  unfold read_tsc, tsc_at. destruct s as [ni nt ol co cc cf ts ti tm]. state_fields.
  f_equal. f_equal. f_equal.
  destruct (Nat.leb_spec 6 n) as [H | H].
  - apply Z.gtb_lt. lia.
  - rewrite Z.gtb_ltb. apply Z.ltb_ge. lia.
Qed.

(** One sample writes to no port, makes between 1 and 50000 polls and
    between 1 and 50001 cycle-counter reads. *)
Lemma pit_expect_msb_io val s :
  let s' := snd (pit_expect_msb E val s) in
  outb_log s' = outb_log s /\
  Z.of_nat (n_inb s) + 2 <= Z.of_nat (n_inb s') <= Z.of_nat (n_inb s) + 100000 /\
  Z.of_nat (n_tsc s) + 1 <= Z.of_nat (n_tsc s') <= Z.of_nat (n_tsc s) + 50001.
Proof.
  cbv zeta. rewrite pit_expect_msb_result. cbn [snd].
  pose proof (confirmations_le val (Z.to_nat 50000) (n_inb s)) as Hn.
  set (n := confirmations E val (n_inb s) (Z.to_nat 50000)) in *.
  destruct s as [ni nt ol co cc cf ts ti tm]. state_fields.
  split; [reflexivity | lia].
Qed.

(** The same for the rest of the [for] loop from iteration [i] on. *)
Lemma quick_pit_loop_io fuel :
  forall i tsc d1 s, 1 <= i <= MAX_QUICK_PIT_ITERATIONS + 1 ->
    let s' := snd (quick_pit_loop E fuel i tsc d1 s) in
    outb_log s' = outb_log s /\
    (n_inb s <= n_inb s')%nat /\ (n_tsc s <= n_tsc s')%nat /\
    Z.of_nat (n_inb s') <=
      Z.of_nat (n_inb s) + (MAX_QUICK_PIT_ITERATIONS + 1 - i) * 100002 /\
    Z.of_nat (n_tsc s') <=
      Z.of_nat (n_tsc s) + (MAX_QUICK_PIT_ITERATIONS + 1 - i) * 50001.
Proof.
  induction fuel as [| fuel IH]; intros i tsc d1 s Hi; cbn [quick_pit_loop]; cbv zeta.
  - cbn [snd]. repeat split; lia.
  - destruct (i <=? MAX_QUICK_PIT_ITERATIONS) eqn:C;
      [apply Z.leb_le in C | cbn [snd]; repeat split; lia].
    pose proof (pit_expect_msb_io (255 - i) s) as X. cbv zeta in X.
    destruct (pit_expect_msb E (255 - i) s) as [[[ok t2] d2] s1]. cbn [snd] in X.
    destruct X as (X1 & X2 & X3).
    destruct ok; cbn [negb]; [| cbn [snd]; rewrite X1; repeat split; lia].
    destruct (u64 (d1 + d2) >=? Z.shiftr (u64 (t2 - tsc)) 11).
    + destruct (IH (i + 1) tsc d1 s1) as (I1 & I2 & I3 & I4 & I5); [lia |].
      rewrite I1, X1. repeat split; lia.
    + rewrite pit_verify_msb_result.
      assert (V : outb_log (set_n_inb (S (S (n_inb s1))) s1) = outb_log s
                  /\ n_inb (set_n_inb (S (S (n_inb s1))) s1) = S (S (n_inb s1))
                  /\ n_tsc (set_n_inb (S (S (n_inb s1))) s1) = n_tsc s1)
        by (rewrite <- X1; repeat split).
      destruct V as (V1 & V2 & V3).
      destruct (u8 (inb_val E (S (n_inb s1)) (PIT_IO_CHANNEL_2 E)) =? u8 (254 - i));
        cbn [negb snd]; rewrite V1, V2, V3; repeat split; lia.
Qed.

(** The whole search: the four set-up writes and nothing else go to the
    ports; at least 5 and at most [MAX_ATTEMPT_INB] port reads, at least
    one and at most [MAX_ATTEMPT_TSC] cycle-counter reads. *)
Lemma quick_pit_search_io s :
  let s' := snd (quick_pit_search E s) in
  outb_log s' =
    outb_log s ++
      [(0x61, u8 (Z.lor (Z.land (u8 (inb_val E (n_inb s) 0x61)) (Z.lnot 0x02)) 0x01));
       (PIT_IO_CMD E, u8 (Z.lor (PIT_CMD_CHANNEL_2 E) (PIT_ACC_LOHI E)));
       (PIT_IO_CHANNEL_2 E, 255); (PIT_IO_CHANNEL_2 E, 255)] /\
  Z.of_nat (n_inb s) + 5 <= Z.of_nat (n_inb s') <= Z.of_nat (n_inb s) + MAX_ATTEMPT_INB /\
  Z.of_nat (n_tsc s) + 1 <= Z.of_nat (n_tsc s') <= Z.of_nat (n_tsc s) + MAX_ATTEMPT_TSC.
Proof.
  cbv zeta. unfold quick_pit_search, inb. cbv zeta.
  set (sa := outb _ _ (outb _ _ (outb _ _ (outb _ _ _)))).
  assert (A : outb_log sa =
                outb_log s ++
                  [(0x61, u8 (Z.lor (Z.land (u8 (inb_val E (n_inb s) 0x61)) (Z.lnot 0x02)) 0x01));
                   (PIT_IO_CMD E, u8 (Z.lor (PIT_CMD_CHANNEL_2 E) (PIT_ACC_LOHI E)));
                   (PIT_IO_CHANNEL_2 E, 255); (PIT_IO_CHANNEL_2 E, 255)]
              /\ n_inb sa = S (n_inb s) /\ n_tsc sa = n_tsc s).
  { subst sa. destruct s as [ni nt ol co cc cf ts ti tm]. state_compute.
    repeat rewrite <- app_assoc. repeat split. }
  destruct A as (A1 & A2 & A3).
  rewrite pit_verify_msb_result.
  set (sb := set_n_inb (S (S (n_inb sa))) sa).
  assert (B : outb_log sb = outb_log sa /\ n_inb sb = S (S (n_inb sa))
              /\ n_tsc sb = n_tsc sa) by repeat split.
  destruct B as (B1 & B2 & B3).
  pose proof (pit_expect_msb_io 255 sb) as X. cbv zeta in X.
  destruct (pit_expect_msb E 255 sb) as [[[ok tsc] d1] sc]. cbn [snd] in X.
  destruct X as (X1 & X2 & X3).
  unfold MAX_ATTEMPT_INB, MAX_ATTEMPT_TSC.
  change MAX_QUICK_PIT_ITERATIONS with 116.
  destruct ok.
  - pose proof (quick_pit_loop_io (Z.to_nat 116 + 1) 1 tsc d1 sc) as L.
    cbv zeta in L. change MAX_QUICK_PIT_ITERATIONS with 116 in L.
    destruct L as (L1 & L2 & L3 & L4 & L5); [lia |].
    destruct (quick_pit_loop E (Z.to_nat 116 + 1) 1 tsc d1 sc)
      as [[[[j dl] d2] |] sd]; cbn [snd] in *;
      (split; [congruence | lia]).
  - cbn [snd]. split; [congruence | lia].
Qed.

End Polling.

Section Attempts.

Variable E : Env.

Lemma quick_pit_calibrate_state s :
  snd (quick_pit_calibrate E s) = snd (quick_pit_search E s).
Proof.
  unfold quick_pit_calibrate.
  destruct (quick_pit_search E s) as [[[[[i delta] d1] d2] |] s']; reflexivity.
Qed.

(** The kHz value of an attempt is below [2 ^ 47]: the last step divides a
    64-bit value by at least 256000. *)
Lemma quick_pit_calibrate_range s : 0 <= fst (quick_pit_calibrate E s) < 2 ^ 47.
Proof.
  unfold quick_pit_calibrate.
  destruct (quick_pit_search E s) as [[[[[i delta] d1] d2] |] s'] eqn:Q;
    cbn [fst]; [| lia].
  destruct (quick_pit_search_accepts E s i delta d1 d2 s' Q) as (Hi & _).
  change MAX_QUICK_PIT_ITERATIONS with 116 in Hi.
  unfold quick_pit_success.
  set (x := u64 (u64 (delta + Z.quot (s64 (u64 (d2 - d1))) 2) * PIT_TICK_RATE)).
  pose proof (u64_range (u64 (delta + Z.quot (s64 (u64 (d2 - d1))) 2) * PIT_TICK_RATE))
    as Hx. fold x in Hx.
  rewrite (u64_small (i * 256 * 1000)) by lia.
  split.
  - apply Z.div_pos; lia.
  - apply Z.div_lt_upper_bound; lia.
Qed.

Lemma tsc_calibrate_loop_range fuel :
  forall i s, cache_in_range s ->
    cache_in_range (snd (tsc_calibrate_loop E fuel i s)).
Proof.
  induction fuel as [| fuel IH]; intros i s H; cbn [tsc_calibrate_loop]; cbv zeta;
    [exact H |].
  destruct (i - 1 >? 0); [| exact H].
  pose proof (quick_pit_calibrate_range s) as R.
  destruct (quick_pit_calibrate E s) as [r s1]. cbn [fst] in R.
  destruct (r =? 0); [apply IH |]; exact R.
Qed.

Lemma tsc_calibrate_range s :
  cache_in_range s -> cache_in_range (snd (tsc_calibrate E s)).
Proof.
  intros H. unfold tsc_calibrate. destruct (cpu_freq s =? 0); [| exact H].
  pose proof (tsc_calibrate_loop_range (Z.to_nat TIMES) TIMES s H) as L.
  destruct (tsc_calibrate_loop E (Z.to_nat TIMES) TIMES s) as [i s1].
  cbn [snd] in *. destruct (i =? 0); [| exact L].
  unfold cache_in_range. cbn. unfold DEFAULT_FREQ. lia.
Qed.

(** The retry loop reads ports and the cycle counter only through its
    attempts: between 5 and [MAX_ATTEMPT_INB] port reads and between 1 and
    [MAX_ATTEMPT_TSC] cycle-counter reads for each attempt counted. *)
Lemma tsc_calibrate_loop_io fuel :
  forall i s,
    let s' := snd (tsc_calibrate_loop E fuel i s) in
    let k := Z.of_nat (calib_calls s') - Z.of_nat (calib_calls s) in
    0 <= k /\
    Z.of_nat (n_inb s) + 5 * k <= Z.of_nat (n_inb s')
      <= Z.of_nat (n_inb s) + k * MAX_ATTEMPT_INB /\
    Z.of_nat (n_tsc s) + k <= Z.of_nat (n_tsc s')
      <= Z.of_nat (n_tsc s) + k * MAX_ATTEMPT_TSC.
Proof.
  unfold MAX_ATTEMPT_INB, MAX_ATTEMPT_TSC. change MAX_QUICK_PIT_ITERATIONS with 116.
  induction fuel as [| fuel IH]; intros i s; cbn [tsc_calibrate_loop]; cbv zeta.
  - cbn [snd]. lia.
  - destruct (i - 1 >? 0); [| cbn [snd]; lia].
    pose proof (quick_pit_calibrate_frame E s) as F. cbv zeta in F.
    pose proof (quick_pit_search_io E s) as Q. cbv zeta in Q.
    rewrite <- quick_pit_calibrate_state in Q.
    unfold MAX_ATTEMPT_INB, MAX_ATTEMPT_TSC in Q.
    change MAX_QUICK_PIT_ITERATIONS with 116 in Q.
    destruct (quick_pit_calibrate E s) as [r s1]. cbn [snd] in F, Q.
    destruct F as (_ & _ & _ & F4). destruct Q as (_ & Q2 & Q3).
    destruct (r =? 0).
    + specialize (IH (i - 1) (set_cpu_freq r s1)). cbv zeta in IH.
      change (calib_calls (set_cpu_freq r s1)) with (calib_calls s1) in IH.
      change (n_inb (set_cpu_freq r s1)) with (n_inb s1) in IH.
      change (n_tsc (set_cpu_freq r s1)) with (n_tsc s1) in IH.
      lia.
    + cbn [snd].
      change (calib_calls (set_cpu_freq r s1)) with (calib_calls s1).
      change (n_inb (set_cpu_freq r s1)) with (n_inb s1).
      change (n_tsc (set_cpu_freq r s1)) with (n_tsc s1).
      lia.
Qed.

End Attempts.

(** X6: every call of [quick_pit_calibrate] writes exactly four bytes to
    ports, in this order: to port 0x61 the byte just read there with bit 0
    (gate) set, bit 1 (speaker) cleared and the other bits kept; the mode
    command; and 0xFF twice to channel 2.  The polling that follows
    writes nothing. *)
Theorem quick_pit_calibrate_port_writes (E : Env) (s : State) :
  let v := u8 (inb_val E (n_inb s) 0x61) in
  let g := u8 (Z.lor (Z.land v (Z.lnot 0x02)) 0x01) in
  outb_log (snd (quick_pit_calibrate E s)) =
    outb_log s ++
      [(0x61, g);
       (PIT_IO_CMD E, u8 (Z.lor (PIT_CMD_CHANNEL_2 E) (PIT_ACC_LOHI E)));
       (PIT_IO_CHANNEL_2 E, 255); (PIT_IO_CHANNEL_2 E, 255)] /\
  Z.testbit g 0 = true /\
  Z.testbit g 1 = false /\
  (forall k, 2 <= k -> Z.testbit g k = Z.testbit v k).
Proof.
  cbv zeta. split.
  - rewrite quick_pit_calibrate_state. exact (proj1 (quick_pit_search_io E s)).
  - set (v := u8 (inb_val E (n_inb s) 97)).
    assert (B : forall k, 0 <= k ->
              Z.testbit (Z.lor (Z.land v (Z.lnot 2)) 1) k =
              (Z.testbit v k && negb (Z.testbit 2 k)) || Z.testbit 1 k).
    { intros k Hk. rewrite Z.lor_spec, Z.land_spec, Z.lnot_spec by exact Hk.
      reflexivity. }
    unfold u8 at 1 2 3.
    split; [| split].
    + rewrite Z.mod_pow2_bits_low by lia. rewrite B by lia.
      change (Z.testbit 1 0) with true. apply orb_true_r.
    + rewrite Z.mod_pow2_bits_low by lia. rewrite B by lia.
      change (Z.testbit 2 1) with true. change (Z.testbit 1 1) with false.
      cbn [negb]. rewrite andb_false_r. reflexivity.
    + intros k Hk. destruct (Z_lt_ge_dec k 8) as [Lo | Hi].
      * rewrite Z.mod_pow2_bits_low by lia. rewrite B by lia.
        rewrite (Z.bits_above_log2 2 k) by (cbn; lia).
        rewrite (Z.bits_above_log2 1 k) by (cbn; lia).
        cbn [negb]. rewrite andb_true_r, orb_false_r. reflexivity.
      * rewrite Z.mod_pow2_bits_high by lia.
        subst v. unfold u8. rewrite Z.mod_pow2_bits_high by lia. reflexivity.
Qed.

(** X7: one call of [quick_pit_calibrate] is bounded: it makes at least 5
    and at most 11700235 port reads, and at least 1 and at most 5850117
    cycle-counter reads, whatever the hardware answers. *)
Theorem quick_pit_calibrate_bounded (E : Env) (s : State) :
  let s' := snd (quick_pit_calibrate E s) in
  Z.of_nat (n_inb s) + 5 <= Z.of_nat (n_inb s') <= Z.of_nat (n_inb s) + 11700235 /\
  Z.of_nat (n_tsc s) + 1 <= Z.of_nat (n_tsc s') <= Z.of_nat (n_tsc s) + 5850117.
Proof.
  cbv zeta. rewrite quick_pit_calibrate_state.
  exact (proj2 (quick_pit_search_io E s)).
Qed.

(** X8: one call of [tsc_calibrate] is bounded: it makes at most 99
    attempts, and its port reads and cycle-counter reads are those of its
    attempts, between 5 and 11700235 port reads and between 1 and 5850117
    cycle-counter reads for each attempt made. *)
Theorem tsc_calibrate_bounded (E : Env) (s : State) :
  let s' := snd (tsc_calibrate E s) in
  let k := Z.of_nat (calib_calls s') - Z.of_nat (calib_calls s) in
  0 <= k <= 99 /\
  Z.of_nat (n_inb s) + 5 * k <= Z.of_nat (n_inb s')
    <= Z.of_nat (n_inb s) + k * 11700235 /\
  Z.of_nat (n_tsc s) + k <= Z.of_nat (n_tsc s')
    <= Z.of_nat (n_tsc s) + k * 5850117.
Proof.
  cbv zeta. pose proof (tsc_calibrate_attempts E s) as A. revert A.
  unfold tsc_calibrate. destruct (cpu_freq s =? 0); cbn [snd]; [| lia].
  pose proof (tsc_calibrate_loop_io E (Z.to_nat TIMES) TIMES s) as L.
  cbv zeta in L. unfold MAX_ATTEMPT_INB, MAX_ATTEMPT_TSC in L.
  change MAX_QUICK_PIT_ITERATIONS with 116 in L.
  destruct (tsc_calibrate_loop E (Z.to_nat TIMES) TIMES s) as [i s1].
  cbn [snd] in L.
  destruct (i =? 0); intros A;
    [change (calib_calls (cprintf CalibrationNotice (set_cpu_freq DEFAULT_FREQ s1)))
       with (calib_calls s1) in *;
     change (n_inb (cprintf CalibrationNotice (set_cpu_freq DEFAULT_FREQ s1)))
       with (n_inb s1);
     change (n_tsc (cprintf CalibrationNotice (set_cpu_freq DEFAULT_FREQ s1)))
       with (n_tsc s1) |];
    lia.
Qed.

(** X9: when the baseline sample at [0xFF] is confirmed fewer than 6
    times in a row, [quick_pit_calibrate] returns 0 at once: it has made
    only the port read at 0x61, the discarded poll and the polls of the
    baseline sample. *)
Theorem quick_pit_calibrate_baseline_failure (E : Env) (s : State) :
  (confirmations E 0xFF (n_inb s + 3) (Z.to_nat 50000) < 6)%nat ->
  fst (quick_pit_calibrate E s) = 0 /\
  n_inb (snd (quick_pit_calibrate E s)) =
    (n_inb s + 3 + 2 * (confirmations E 0xFF (n_inb s + 3) (Z.to_nat 50000) + 1))%nat /\
  n_tsc (snd (quick_pit_calibrate E s)) =
    (n_tsc s + confirmations E 0xFF (n_inb s + 3) (Z.to_nat 50000) + 1)%nat.
Proof.
  intros Hn.
  unfold quick_pit_calibrate, quick_pit_search, inb. cbv zeta.
  set (sa := outb _ _ (outb _ _ (outb _ _ (outb _ _ _)))).
  rewrite pit_verify_msb_result. rewrite pit_expect_msb_result.
  assert (I : n_inb (set_n_inb (S (S (n_inb sa))) sa) = (n_inb s + 3)%nat).
  { subst sa. destruct s. state_compute. lia. }
  rewrite I.
  set (n := confirmations E 255 (n_inb s + 3) (Z.to_nat 50000)) in *.
  destruct (Nat.leb_spec 6 n) as [H | H]; [lia |].
  cbn [fst snd]. split; [reflexivity |].
  subst sa. destruct s as [ni nt ol co cc cf ts ti tm]. state_compute.
  split; lia.
Qed.

Lemma quick_pit_calibrate_baseline_failure_witness :
  (confirmations stuck_env 0xFF (n_inb boot + 3) (Z.to_nat 50000) < 6)%nat /\
  fst (quick_pit_calibrate stuck_env boot) = 0 /\
  n_inb (snd (quick_pit_calibrate stuck_env boot)) =
    (n_inb boot + 3 +
     2 * (confirmations stuck_env 0xFF (n_inb boot + 3) (Z.to_nat 50000) + 1))%nat /\
  n_tsc (snd (quick_pit_calibrate stuck_env boot)) =
    (n_tsc boot + confirmations stuck_env 0xFF (n_inb boot + 3) (Z.to_nat 50000) + 1)%nat.
Proof.
  assert (H : (confirmations stuck_env 0xFF (n_inb boot + 3) (Z.to_nat 50000) < 6)%nat)
    by (vm_compute; lia).
  split; [exact H |].
  exact (quick_pit_calibrate_baseline_failure stuck_env boot H).
Defined.

(** X10: from a state whose cache is empty or holds a value a
    calibration can have left (below [2 ^ 47]), [tsc_calibrate] returns a
    positive number of cycles per second, exactly 1000 times the value it
    leaves in the cache — the multiplication does not wrap — and the
    cache is again in that range. *)
Theorem tsc_calibrate_positive (E : Env) (s : State) :
  cache_in_range s ->
  0 < fst (tsc_calibrate E s) < 2 ^ 57 /\
  fst (tsc_calibrate E s) = cpu_freq (snd (tsc_calibrate E s)) * 1000 /\
  cache_in_range (snd (tsc_calibrate E s)).
Proof.
  intros H.
  pose proof (tsc_calibrate_range E s H) as R.
  destruct (tsc_calibrate_fills E s) as [Hnz Hv].
  unfold cache_in_range in R.
  rewrite u64_small in Hv by lia.
  split; [lia |]. split; [exact Hv | exact R].
Qed.

Lemma tsc_calibrate_positive_witness :
  cache_in_range boot /\
  0 < fst (tsc_calibrate steady_env boot) < 2 ^ 57 /\
  fst (tsc_calibrate steady_env boot)
    = cpu_freq (snd (tsc_calibrate steady_env boot)) * 1000 /\
  cache_in_range (snd (tsc_calibrate steady_env boot)).
Proof.
  assert (H : cache_in_range boot) by (unfold cache_in_range; cbn; lia).
  split; [exact H |].
  exact (tsc_calibrate_positive steady_env boot H).
Defined.

Section Anchors.

Variable E : Env.

Lemma tsc_nondecreasing_step n :
  forall lo, tsc_nondecreasing E lo n = true ->
    forall m, (lo <= m < lo + n)%nat -> tsc_at E m <= tsc_at E (S m).
Proof.
  induction n as [| n IH]; intros lo H m Hm; [lia |].
  cbn [tsc_nondecreasing] in H. apply andb_prop in H. destruct H as [H1 H2].
  destruct (Nat.eq_dec m lo) as [-> | N].
  - apply Z.leb_le. exact H1.
  - apply (IH (S lo) H2). lia.
Qed.

Lemma tsc_nondecreasing_le lo n :
  tsc_nondecreasing E lo n = true ->
  forall j k, (lo <= j)%nat -> (j <= k)%nat -> (k <= lo + n)%nat ->
    tsc_at E j <= tsc_at E k.
Proof.
  intros H j k Hj Hjk. induction Hjk as [| k Hjk IH]; intros Hk; [lia |].
  pose proof (tsc_nondecreasing_step n lo H k ltac:(lia)). lia.
Qed.

(** A sample that succeeds has its anchor at some cycle-counter read [a]
    and its jitter bound between that read and the next, which is the
    last read it makes. *)
Lemma pit_expect_msb_anchor val s t d s' :
  pit_expect_msb E val s = (true, t, d, s') ->
  exists a, (n_tsc s <= a)%nat /\ t = tsc_at E a /\
            d = u64 (tsc_at E (S a) - tsc_at E a) /\ n_tsc s' = S (S a).
Proof.
  rewrite pit_expect_msb_result.
  generalize (confirmations E val (n_inb s) (Z.to_nat 50000)). intros n.
  intros H.
  pose proof (f_equal (fun p => fst (fst (fst p))) H) as Hok.
  pose proof (f_equal (fun p => snd (fst (fst p))) H) as Ht.
  pose proof (f_equal (fun p => snd (fst p)) H) as Hd.
  pose proof (f_equal snd H) as Hs.
  cbv beta in Hok, Ht, Hd. cbn [fst snd] in Hok, Ht, Hd, Hs. clear H.
  destruct n as [| m]; [discriminate |].
  exists (n_tsc s + m)%nat. cbn [anchor] in Ht, Hd. fold (tsc_at E (n_tsc s + m)) in Ht, Hd.
  replace (n_tsc s + S m)%nat with (S (n_tsc s + m)) in Hd, Hs by lia.
  subst t. split; [lia |]. split; [reflexivity |]. split; [congruence |].
  subst s'. destruct s; reflexivity.
Qed.

Lemma quick_pit_loop_anchor fuel :
  forall i tsc d1 s j delta d2 s',
    1 <= i <= MAX_QUICK_PIT_ITERATIONS + 1 ->
    quick_pit_loop E fuel i tsc d1 s = (Some (j, delta, d2), s') ->
    exists b, (n_tsc s <= b)%nat /\ delta = u64 (tsc_at E b - tsc) /\
              d2 = u64 (tsc_at E (S b) - tsc_at E b) /\ n_tsc s' = S (S b).
Proof.
  induction fuel as [| fuel IH]; intros i tsc d1 s j delta d2 s' Hi H;
    cbn [quick_pit_loop] in H; [discriminate |].
  destruct (i <=? MAX_QUICK_PIT_ITERATIONS) eqn:C; [| discriminate].
  apply Z.leb_le in C.
  destruct (pit_expect_msb E (255 - i) s) as [[[ok t2] d2'] s1] eqn:X.
  destruct ok; cbn [negb] in H; [| discriminate].
  destruct (pit_expect_msb_anchor _ _ _ _ _ X) as (a & A1 & A2 & A3 & A4).
  destruct (u64 (d1 + d2') >=? Z.shiftr (u64 (t2 - tsc)) 11).
  - destruct (IH (i + 1) tsc d1 s1 j delta d2 s' ltac:(lia) H) as (b & B1 & rest).
    exists b. split; [lia | exact rest].
  - rewrite pit_verify_msb_result in H.
    destruct (u8 (inb_val E (S (n_inb s1)) (PIT_IO_CHANNEL_2 E)) =? u8 (254 - i));
      cbn [negb] in H; [| discriminate].
    injection H as <- <- <- <-.
    exists a. subst t2. repeat split; try assumption.
Qed.

Lemma quick_pit_search_anchors s i delta d1 d2 s' :
  quick_pit_search E s = (Some (i, delta, d1, d2), s') ->
  exists a b, (n_tsc s <= a)%nat /\ (S (S a) <= b)%nat /\ n_tsc s' = S (S b) /\
    d1 = u64 (tsc_at E (S a) - tsc_at E a) /\
    delta = u64 (tsc_at E b - tsc_at E a) /\
    d2 = u64 (tsc_at E (S b) - tsc_at E b).
Proof.
  unfold quick_pit_search, inb. cbv zeta.
  set (sa := outb _ _ (outb _ _ (outb _ _ (outb _ _ _)))).
  rewrite pit_verify_msb_result.
  set (sb := set_n_inb (S (S (n_inb sa))) sa).
  assert (B : n_tsc sb = n_tsc s) by (subst sb sa; destruct s; reflexivity).
  destruct (pit_expect_msb E 255 sb) as [[[ok tsc] d1'] sc] eqn:X.
  destruct ok; [| discriminate].
  destruct (pit_expect_msb_anchor _ _ _ _ _ X) as (a & A1 & A2 & A3 & A4).
  destruct (quick_pit_loop E _ 1 tsc d1' sc) as [[[[j dl] d2'] |] sd] eqn:L;
    [| discriminate].
  intros H. injection H as <- <- <- <- <-.
  assert (Hi : 1 <= 1 <= MAX_QUICK_PIT_ITERATIONS + 1)
    by (change MAX_QUICK_PIT_ITERATIONS with 116; lia).
  destruct (quick_pit_loop_anchor _ _ _ _ _ _ _ _ _ Hi L)
    as (b & B1 & B2 & B3 & B4).
  exists a, b. subst tsc. repeat split; try assumption; lia.
Qed.

Lemma after_attempts_frame n :
  forall s, console (after_attempts E n s) = console s /\
            calib_calls (after_attempts E n s) = (calib_calls s + n)%nat.
Proof.
  induction n as [| n IH]; intros s; cbn [after_attempts]; [split; [reflexivity | lia] |].
  destruct (IH (snd (quick_pit_calibrate E s))) as [I1 I2].
  destruct (quick_pit_calibrate_frame E s) as (F1 & _ & _ & F4).
  split; [congruence | lia].
Qed.

Lemma get_timer_id_not_pm name : get_timer_id name <> ID_PM.
Proof.
  unfold get_timer_id.
  destruct (strcmp_is_0 name "hpet0"); [discriminate |].
  destruct (strcmp_is_0 name "hpet1"); [discriminate |].
  destruct (strcmp_is_0 name "pit"); [discriminate |].
  destruct (strcmp_is_0 name "pm"); discriminate.
Qed.

End Anchors.

(** X11: when the cycle counter does not go backwards over the reads of
    an attempt, the sample a successful search ends with is made of true
    differences of reads: [d1] and [d2] are the gaps right after the two
    anchors, [delta] is the distance between the anchors, the second
    anchor comes after the first jitter read, and the accepted jitter
    [d1 + d2] is below [delta / 2048] without any wrap-around. *)
Theorem quick_pit_search_sample (E : Env) (s : State) (i delta d1 d2 : Z) (s' : State) :
  quick_pit_search E s = (Some (i, delta, d1, d2), s') ->
  tsc_nondecreasing E (n_tsc s) (n_tsc s' - S (n_tsc s)) = true ->
  exists a b,
    (n_tsc s <= a)%nat /\ (S (S a) <= b)%nat /\ n_tsc s' = S (S b) /\
    d1 = tsc_at E (S a) - tsc_at E a /\
    delta = tsc_at E b - tsc_at E a /\
    d2 = tsc_at E (S b) - tsc_at E b /\
    0 <= d1 /\ 0 <= d2 /\
    2048 * (d1 + d2 + 1) <= delta.
Proof.
  intros H M.
  destruct (quick_pit_search_anchors E s i delta d1 d2 s' H)
    as (a & b & A1 & A2 & A3 & A4 & A5 & A6).
  destruct (quick_pit_search_accepts E s i delta d1 d2 s' H)
    as (_ & _ & _ & _ & Hacc & _).
  rewrite A3 in M.
  pose proof (tsc_nondecreasing_le E _ _ M) as Le.
  pose proof (Le a (S a) ltac:(lia) ltac:(lia) ltac:(lia)) as L1.
  pose proof (Le (S a) b ltac:(lia) ltac:(lia) ltac:(lia)) as L2.
  pose proof (Le b (S b) ltac:(lia) ltac:(lia) ltac:(lia)) as L3.
  assert (Ra : 0 <= tsc_at E a < 2 ^ 64) by apply u64_range.
  assert (Rb : 0 <= tsc_at E (S b) < 2 ^ 64) by apply u64_range.
  rewrite u64_small in A4, A5, A6 by lia.
  rewrite (u64_small (d1 + d2)) in Hacc by lia.
  rewrite Z.shiftr_div_pow2 in Hacc by lia. change (2 ^ 11) with 2048 in Hacc.
  exists a, b. repeat split; try assumption; try lia.
  clear - Hacc. Z.to_euclidean_division_equations. lia.
Qed.

Lemma quick_pit_search_sample_witness :
  quick_pit_search steady_env boot
    = (Some (1, 6000000, 100, 100), after_one_attempt) /\
  tsc_nondecreasing steady_env (n_tsc boot) (n_tsc after_one_attempt - S (n_tsc boot))
    = true /\
  exists a b,
    (n_tsc boot <= a)%nat /\ (S (S a) <= b)%nat /\ n_tsc after_one_attempt = S (S b) /\
    100 = tsc_at steady_env (S a) - tsc_at steady_env a /\
    6000000 = tsc_at steady_env b - tsc_at steady_env a /\
    100 = tsc_at steady_env (S b) - tsc_at steady_env b /\
    0 <= 100 /\ 0 <= 100 /\
    2048 * (100 + 100 + 1) <= 6000000.
Proof.
  assert (H : quick_pit_search steady_env boot
              = (Some (1, 6000000, 100, 100), after_one_attempt))
    by (vm_compute; reflexivity).
  assert (M : tsc_nondecreasing steady_env (n_tsc boot)
                (n_tsc after_one_attempt - S (n_tsc boot)) = true)
    by (vm_compute; reflexivity).
  split; [exact H |]. split; [exact M |].
  exact (quick_pit_search_sample steady_env boot 1 6000000 100 100 after_one_attempt H M).
Defined.

(** X12: when the cycle counter does not go backwards over the reads of
    an attempt and the centred delta times [PIT_TICK_RATE] fits in 64
    bits, a successful [quick_pit_calibrate] returns the exact truncated
    quotient [(delta + (d2 - d1) / 2) * PIT_TICK_RATE / (i * 256 * 1000)],
    which is at least 82 (kHz). *)
Theorem quick_pit_calibrate_steady (E : Env) (s : State) (i delta d1 d2 : Z) (s' : State) :
  quick_pit_search E s = (Some (i, delta, d1, d2), s') ->
  tsc_nondecreasing E (n_tsc s) (n_tsc s' - S (n_tsc s)) = true ->
  (delta + Z.quot (d2 - d1) 2) * PIT_TICK_RATE < 2 ^ 64 ->
  fst (quick_pit_calibrate E s) =
    (delta + Z.quot (d2 - d1) 2) * PIT_TICK_RATE / (i * 256 * 1000) /\
  82 <= fst (quick_pit_calibrate E s).
Proof.
  intros H M Hp.
  destruct (quick_pit_search_anchors E s i delta d1 d2 s' H)
    as (a & b & A1 & A2 & A3 & A4 & A5 & A6).
  destruct (quick_pit_search_accepts E s i delta d1 d2 s' H)
    as (Hi & Hd & _ & _ & Hacc & _).
  rewrite A3 in M.
  pose proof (tsc_nondecreasing_le E _ _ M) as Le.
  pose proof (Le a (S a) ltac:(lia) ltac:(lia) ltac:(lia)) as L1.
  pose proof (Le (S a) b ltac:(lia) ltac:(lia) ltac:(lia)) as L2.
  pose proof (Le b (S b) ltac:(lia) ltac:(lia) ltac:(lia)) as L3.
  assert (Ra : 0 <= tsc_at E a < 2 ^ 64) by apply u64_range.
  assert (Rb : 0 <= tsc_at E (S b) < 2 ^ 64) by apply u64_range.
  rewrite u64_small in A4, A6 by lia.
  rewrite (u64_small (d1 + d2)) in Hacc by lia.
  destruct (quick_pit_success_exact i delta d1 d2 Hi Hd ltac:(lia) ltac:(lia) Hacc Hp)
    as [Hv _].
  unfold quick_pit_calibrate. rewrite H. cbn [fst]. rewrite Hv.
  split; [reflexivity |].
  rewrite Z.shiftr_div_pow2 in Hacc by lia. change (2 ^ 11) with 2048 in Hacc.
  assert (Hq : - d1 <= Z.quot (d2 - d1) 2)
    by (clear - L1 L3 A4 A6; Z.to_euclidean_division_equations; lia).
  assert (Hdl : 2048 * (d1 + d2 + 1) <= delta)
    by (clear - Hacc; Z.to_euclidean_division_equations; lia).
  change MAX_QUICK_PIT_ITERATIONS with 116 in Hi. unfold PIT_TICK_RATE in *.
  apply Z.div_le_lower_bound; lia.
Qed.

Lemma quick_pit_calibrate_steady_witness :
  quick_pit_search steady_env boot
    = (Some (1, 6000000, 100, 100), after_one_attempt) /\
  tsc_nondecreasing steady_env (n_tsc boot) (n_tsc after_one_attempt - S (n_tsc boot))
    = true /\
  (6000000 + Z.quot (100 - 100) 2) * PIT_TICK_RATE < 2 ^ 64 /\
  fst (quick_pit_calibrate steady_env boot) =
    (6000000 + Z.quot (100 - 100) 2) * PIT_TICK_RATE / (1 * 256 * 1000) /\
  82 <= fst (quick_pit_calibrate steady_env boot).
Proof.
  assert (H : quick_pit_search steady_env boot
              = (Some (1, 6000000, 100, 100), after_one_attempt))
    by (vm_compute; reflexivity).
  assert (M : tsc_nondecreasing steady_env (n_tsc boot)
                (n_tsc after_one_attempt - S (n_tsc boot)) = true)
    by (vm_compute; reflexivity).
  assert (P : (6000000 + Z.quot (100 - 100) 2) * PIT_TICK_RATE < 2 ^ 64)
    by (vm_compute; reflexivity).
  split; [exact H |]. split; [exact M |]. split; [exact P |].
  exact (quick_pit_calibrate_steady steady_env boot 1 6000000 100 100
           after_one_attempt H M P).
Defined.

(** X13: retries mask transient failures.  With an empty cache, if the
    next [n < 99] attempts return 0 and the attempt after them returns
    [r <> 0], [tsc_calibrate] makes exactly these [n + 1] attempts, caches
    [r], returns [r * 1000] without wrap-around and prints nothing. *)
Theorem tsc_calibrate_masks_failures (E : Env) (n : nat) (s : State) :
  cpu_freq s = 0 ->
  (n < 99)%nat ->
  attempts_fail E n s ->
  fst (quick_pit_calibrate E (after_attempts E n s)) <> 0 ->
  fst (tsc_calibrate E s) = fst (quick_pit_calibrate E (after_attempts E n s)) * 1000 /\
  cpu_freq (snd (tsc_calibrate E s)) = fst (quick_pit_calibrate E (after_attempts E n s)) /\
  calib_calls (snd (tsc_calibrate E s)) = (calib_calls s + n + 1)%nat /\
  console (snd (tsc_calibrate E s)) = console s.
Proof.
  intros H0 Hn Ha Hnz.
  rewrite (tsc_calibrate_first_success E n s _ H0 Hn Ha eq_refl Hnz).
  cbn [fst snd].
  pose proof (quick_pit_calibrate_range E (after_attempts E n s)) as R.
  destruct (after_attempts_frame E n s) as [A1 A2].
  destruct (quick_pit_calibrate_frame E (after_attempts E n s)) as (F1 & _ & _ & F4).
  split; [apply u64_small; lia |]. split; [reflexivity |].
  split.
  - change (calib_calls (snd (quick_pit_calibrate E (after_attempts E n s)))
            = (calib_calls s + n + 1)%nat). lia.
  - change (console (snd (quick_pit_calibrate E (after_attempts E n s))) = console s).
    congruence.
Qed.

Lemma tsc_calibrate_masks_failures_witness :
  cpu_freq boot = 0 /\
  (2 < 99)%nat /\
  attempts_fail retry_env 2 boot /\
  fst (quick_pit_calibrate retry_env (after_attempts retry_env 2 boot)) <> 0 /\
  fst (tsc_calibrate retry_env boot)
    = fst (quick_pit_calibrate retry_env (after_attempts retry_env 2 boot)) * 1000 /\
  cpu_freq (snd (tsc_calibrate retry_env boot))
    = fst (quick_pit_calibrate retry_env (after_attempts retry_env 2 boot)) /\
  calib_calls (snd (tsc_calibrate retry_env boot)) = (calib_calls boot + 2 + 1)%nat /\
  console (snd (tsc_calibrate retry_env boot)) = console boot.
Proof.
  assert (H0 : cpu_freq boot = 0) by reflexivity.
  assert (Hn : (2 < 99)%nat) by lia.
  assert (Ha : attempts_fail retry_env 2 boot) by (vm_compute; repeat split).
  assert (Hnz : fst (quick_pit_calibrate retry_env (after_attempts retry_env 2 boot)) <> 0)
    by (vm_compute; discriminate).
  split; [exact H0 |]. split; [exact Hn |]. split; [exact Ha |]. split; [exact Hnz |].
  exact (tsc_calibrate_masks_failures retry_env 2 boot H0 Hn Ha Hnz).
Defined.

Section Automaton.

Variable E : Env.
Hypothesis hpet0_nonzero : u64 (hpet0_get_cpu_freq E) <> 0.
Hypothesis hpet1_nonzero : u64 (hpet1_get_cpu_freq E) <> 0.

Lemma tsc_calibrate_nonzero s :
  cache_in_range s ->
  fst (tsc_calibrate E s) <> 0 /\ cache_in_range (snd (tsc_calibrate E s)).
Proof.
  intros H. pose proof (tsc_calibrate_range E s H) as R.
  destruct (tsc_calibrate_fills E s) as [Hnz Hv].
  split; [| exact R]. unfold cache_in_range in R.
  rewrite u64_small in Hv by lia. lia.
Qed.

Lemma get_cpu_freq_by_id_range id s :
  cache_in_range s -> cache_in_range (snd (get_cpu_freq_by_id E id s)).
Proof.
  intros H. destruct id; cbn [get_cpu_freq_by_id snd]; try exact H.
  apply tsc_calibrate_range. exact H.
Qed.

(** One call, seen through [session_view]. *)
Lemma call_session_step c s :
  cache_in_range s -> timer_id s <> ID_PM ->
  match call E c s with
  | Returns s' =>
      session_step c (session_view s) = Some (session_view s') /\
      cache_in_range s' /\ timer_id s' <> ID_PM
  | DivideError => session_step c (session_view s) = None
  end.
Proof.
  intros Hc Hpm. destruct c as [name | | name]; cbn [call session_step].
  - unfold timer_start, supported. cbn [timer_id set_timer_id].
    destruct (Timer_id_eqb (get_timer_id name) ID_NONE) eqn:C; cbn [negb].
    + apply Timer_id_eqb_eq in C. rewrite C.
      split; [reflexivity |]. split; [exact Hc | cbn; discriminate].
    + unfold session_view. cbn [read_tsc]. state_fields. rewrite C.
      split; [reflexivity |]. split; [exact Hc | apply get_timer_id_not_pm].
  - unfold timer_stop, session_view. cbn [fst snd].
    destruct (timer_started s) eqn:Hs; cbn [negb].
    + cbn [read_tsc].
      set (s1 := set_n_tsc (S (n_tsc s)) s).
      assert (H1 : cache_in_range s1) by exact Hc.
      change (timer_id s1) with (timer_id s).
      pose proof (get_cpu_freq_by_id_range (timer_id s) s1 H1) as R.
      destruct (timer_id s) eqn:Hid; cbn [Timer_id_eqb negb get_cpu_freq_by_id] in *.
      * reflexivity.
      * rewrite (proj2 (Z.eqb_neq _ _) hpet0_nonzero).
        split; [reflexivity |]. split; [exact Hc | discriminate].
      * rewrite (proj2 (Z.eqb_neq _ _) hpet1_nonzero).
        split; [reflexivity |]. split; [exact Hc | discriminate].
      * destruct (tsc_calibrate_nonzero s1 H1) as [Hnz _].
        destruct (tsc_calibrate E s1) as [f s2]. cbn [fst snd] in *.
        rewrite (proj2 (Z.eqb_neq _ _) Hnz).
        split; [reflexivity |]. split; [exact R | discriminate].
      * elim Hpm. reflexivity.
    + change (timer_started (print_timer_error s)) with (timer_started s).
      rewrite Hs. split; [reflexivity |]. split; [exact Hc | exact Hpm].
  - pose proof (timer_cpu_frequency_session E name s) as F.
    unfold session in F. injection F as F1 F2 F3.
    unfold session_view. rewrite F1, F2.
    split; [reflexivity |]. split; [| exact Hpm].
    unfold timer_cpu_frequency.
    destruct (Timer_id_eqb (get_timer_id name) ID_NONE); [exact Hc |].
    pose proof (get_cpu_freq_by_id_range (get_timer_id name) s Hc) as R.
    destruct (get_cpu_freq_by_id E (get_timer_id name) s) as [f s1]. exact R.
Qed.

Lemma run_session_run cs :
  forall s, cache_in_range s -> timer_id s <> ID_PM ->
    match run E cs s with
    | Returns s' => session_run cs (session_view s) = Some (session_view s')
    | DivideError => session_run cs (session_view s) = None
    end.
Proof.
  induction cs as [| c cs IH]; intros s Hc Hpm; cbn [run session_run]; [reflexivity |].
  pose proof (call_session_step c s Hc Hpm) as S1.
  destruct (call E c s) as [s1 |].
  - destruct S1 as (S1 & Hc1 & Hpm1). rewrite S1. apply IH; assumption.
  - rewrite S1. reflexivity.
Qed.

End Automaton.

(** X14: when the two event timers report nonzero frequencies, the cache
    is empty or holds a calibrated value and the recorded source is not
    [ID_PM], a sequence of [timer_start], [timer_stop] and
    [timer_cpu_frequency] calls behaves, as far as the session is
    concerned, like the two-bit automaton [session_run]: it traps on the
    division exactly when the automaton does, that is when a [timer_stop]
    meets a running session with [timer_id = ID_NONE] (the state an
    unsupported [timer_start] leaves a running session in), and otherwise
    ends in the state the automaton predicts. *)
Theorem run_follows_session_automaton (E : Env) (cs : list Call) (s : State) :
  u64 (hpet0_get_cpu_freq E) <> 0 ->
  u64 (hpet1_get_cpu_freq E) <> 0 ->
  cache_in_range s ->
  timer_id s <> ID_PM ->
  (run E cs s = DivideError <-> session_run cs (session_view s) = None) /\
  (forall s', run E cs s = Returns s' ->
              session_run cs (session_view s) = Some (session_view s')).
Proof.
  intros H0 H1 Hc Hpm.
  pose proof (run_session_run E H0 H1 cs s Hc Hpm) as R.
  destruct (run E cs s) as [s1 |].
  - split.
    + split; intros H; [discriminate | congruence].
    + intros s' H. injection H as <-. exact R.
  - split.
    + split; intros _; [exact R | reflexivity].
    + intros s' H. discriminate.
Qed.

Lemma run_follows_session_automaton_witness :
  u64 (hpet0_get_cpu_freq stuck_env) <> 0 /\
  u64 (hpet1_get_cpu_freq stuck_env) <> 0 /\
  cache_in_range boot /\
  timer_id boot <> ID_PM /\
  (run stuck_env two_sessions boot = DivideError <->
   session_run two_sessions (session_view boot) = None) /\
  (forall s', run stuck_env two_sessions boot = Returns s' ->
              session_run two_sessions (session_view boot) = Some (session_view s')).
Proof.
  assert (H0 : u64 (hpet0_get_cpu_freq stuck_env) <> 0) by (vm_compute; discriminate).
  assert (H1 : u64 (hpet1_get_cpu_freq stuck_env) <> 0) by (vm_compute; discriminate).
  assert (Hc : cache_in_range boot) by (unfold cache_in_range; cbn; lia).
  assert (Hpm : timer_id boot <> ID_PM) by (cbn; discriminate).
  split; [exact H0 |]. split; [exact H1 |]. split; [exact Hc |]. split; [exact Hpm |].
  exact (run_follows_session_automaton stuck_env two_sessions boot H0 H1 Hc Hpm).
Defined.

Lemma session_run_supported cs :
  forall v, (fst v = true -> snd v = true) -> starts_supported cs = true ->
    session_run cs v <> None.
Proof.
  induction cs as [| c cs IH]; intros v Hv H; cbn [session_run]; [discriminate |].
  cbn [starts_supported forallb] in H. apply andb_prop in H. destruct H as [Hc H].
  destruct c as [name | | name]; cbn [session_step].
  - rewrite Hc. apply IH; [reflexivity | exact H].
  - destruct v as [r h]. cbn [fst snd] in *. destruct r.
    + rewrite (Hv eq_refl). apply IH; [discriminate | exact H].
    + apply IH; [discriminate | exact H].
  - apply IH; assumption.
Qed.

(** X15: when the two event timers report nonzero frequencies, the cache
    is empty or holds a calibrated value, and the session is idle or has
    one of the three supported sources recorded, a sequence of calls in
    which every [timer_start] names a supported timer never reaches the
    division by zero: the whole sequence returns. *)
Theorem supported_starts_never_trap (E : Env) (cs : list Call) (s : State) :
  u64 (hpet0_get_cpu_freq E) <> 0 ->
  u64 (hpet1_get_cpu_freq E) <> 0 ->
  cache_in_range s ->
  timer_id s <> ID_PM ->
  (timer_started s = true -> timer_id s <> ID_NONE) ->
  starts_supported cs = true ->
  exists s', run E cs s = Returns s'.
Proof.
  intros H0 H1 Hc Hpm Hsrc Hcs.
  pose proof (run_session_run E H0 H1 cs s Hc Hpm) as R.
  destruct (run E cs s) as [s1 |]; [exists s1; reflexivity |].
  exfalso. revert R. apply session_run_supported; [| exact Hcs].
  unfold session_view. cbn [fst snd]. intros Hs.
  specialize (Hsrc Hs). destruct (timer_id s); try reflexivity. elim Hsrc. reflexivity.
Qed.

Lemma supported_starts_never_trap_witness :
  u64 (hpet0_get_cpu_freq stuck_env) <> 0 /\
  u64 (hpet1_get_cpu_freq stuck_env) <> 0 /\
  cache_in_range boot /\
  timer_id boot <> ID_PM /\
  (timer_started boot = true -> timer_id boot <> ID_NONE) /\
  starts_supported [Call_timer_start "pit"; Call_timer_start "hpet1";
                    Call_timer_stop; Call_timer_stop;
                    Call_timer_cpu_frequency "bogus"] = true /\
  exists s', run stuck_env [Call_timer_start "pit"; Call_timer_start "hpet1";
                            Call_timer_stop; Call_timer_stop;
                            Call_timer_cpu_frequency "bogus"] boot = Returns s'.
Proof.
  assert (H0 : u64 (hpet0_get_cpu_freq stuck_env) <> 0) by (vm_compute; discriminate).
  assert (H1 : u64 (hpet1_get_cpu_freq stuck_env) <> 0) by (vm_compute; discriminate).
  assert (Hc : cache_in_range boot) by (unfold cache_in_range; cbn; lia).
  assert (Hpm : timer_id boot <> ID_PM) by (cbn; discriminate).
  assert (Hsrc : timer_started boot = true -> timer_id boot <> ID_NONE)
    by (cbn; discriminate).
  assert (Hcs : starts_supported [Call_timer_start "pit"; Call_timer_start "hpet1";
                                  Call_timer_stop; Call_timer_stop;
                                  Call_timer_cpu_frequency "bogus"] = true)
    by (vm_compute; reflexivity).
  split; [exact H0 |]. split; [exact H1 |]. split; [exact Hc |]. split; [exact Hpm |].
  split; [exact Hsrc |]. split; [exact Hcs |].
  exact (supported_starts_never_trap stuck_env _ boot H0 H1 Hc Hpm Hsrc Hcs).
Defined.
